(** * Telepresence client: daemon lifecycle, bridge supervision, agent injection

    A shallow embedding of
      - [pkg/client/connector/bridge.go]   (module [Connector]),
      - [pkg/client/cli/daemon_state.go]   (module [Cli]),
      - the test helpers [sanitizeWorkload] / [sanitizeService] and the
        injection engine they exercise (module [Injection]).

    Go code that talks to the outside world (sub-processes, gRPC, sockets,
    the file system) is embedded as a computation in a small state-and-trace
    monad: the mutable receiver is the state, every call to a collaborator is
    recorded as an event, and the collaborator's answer comes from an explicit
    record of outcomes. *)

From Stdlib Require Import ZArith String Ascii List DecimalString DecimalZ DecimalPos.
From stdpp Require Import base option list strings gmap.

Open Scope string_scope.
Open Scope list_scope.
Open Scope Z_scope.

(** ** Go values shared by the packages *)

Inductive numErrKind := ErrSyntax | ErrRange.

(** Go [error] values.  Formatted errors keep the format string and its
    arguments, as they are passed to [fmt.Errorf] / [errors.Errorf]. *)
Inductive error :=
| ErrExternal (msg : string)
| ErrNum (func num : string) (kind : numErrKind)
| ErrWrap (cause : error) (msg : string)
| ErrFmt (format : string) (args : list fmtArg)
with fmtArg :=
| ArgStr (s : string)
| ArgInt (n : Z)
| ArgErr (e : error).

(** A Go [(T, error)] result with a non-nil error, or the value. *)
Inductive res (A : Type) :=
| Ok (a : A)
| Err (e : error).
Arguments Ok {A} a.
Arguments Err {A} e.

(** [context.Context] values, as far as the code distinguishes them. *)
Inductive context :=
| CtxBackground
| CtxCommand
| CtxWithCancel (parent : context).

(** [time.Duration] counts nanoseconds. *)
Definition Second : Z := 1000000000.

Module GoLib.

(** [strings.Contains(s, substr)]. *)
Fixpoint Contains (s substr : string) : bool :=
  String.prefix substr s ||
  match s with
  | EmptyString => false
  | String _ s' => Contains s' substr
  end.

Definition byteOf (ch : ascii) : Z := Z.of_N (N_of_ascii ch).

Definition maxUint64 : Z := 2 ^ 64 - 1.

(** The digit loop of [strconv.Atoi] and, for long inputs, of
    [strconv.ParseUint] in base 10: [ch -= '0'; if ch > 9 { syntax error }],
    and a range error as soon as the value no longer fits 64 bits (which
    cannot happen on the short inputs of the fast path). *)
Fixpoint atoiDigits (s : string) (n : Z) : numErrKind + Z :=
  match s with
  | EmptyString => inr n
  | String ch s' =>
      let d := byteOf ch - 48 in
      if (0 <=? d) && (d <=? 9) then
        if n >=? maxUint64 / 10 + 1 then inl ErrRange
        else if n * 10 + d >? maxUint64 then inl ErrRange
        else atoiDigits s' (n * 10 + d)
      else inl ErrSyntax
  end.

(** [strconv.Atoi] on a 64-bit platform: an optional sign, at least one
    decimal digit, nothing else, and a value that fits [int]. *)
Definition Atoi (s : string) : res Z :=
  match s with
  | EmptyString => Err (ErrNum "Atoi" s ErrSyntax)
  | String c rest =>
      let neg := Ascii.eqb c "-" in
      let body := if neg || Ascii.eqb c "+" then rest else s in
      match body with
      | EmptyString => Err (ErrNum "Atoi" s ErrSyntax)
      | _ =>
          match atoiDigits body 0 with
          | inl kind => Err (ErrNum "Atoi" s kind)
          | inr n =>
              let v := if neg then - n else n in
              if (- 2 ^ 63 <=? v) && (v <? 2 ^ 63) then Ok v
              else Err (ErrNum "Atoi" s ErrRange)
          end
      end
  end.

(** [strconv.Itoa], also the rendering of [%d]. *)
Definition Itoa (n : Z) : string := NilZero.string_of_int (Z.to_int n).

(** A string made of decimal digits only. *)
Fixpoint allDigits (s : string) : bool :=
  match s with
  | EmptyString => true
  | String ch s' =>
      let d := byteOf ch - 48 in
      (0 <=? d) && (d <=? 9) && allDigits s'
  end.

(** The strings [Atoi] can accept: an optional sign, then one digit or more. *)
Definition decimalString (s : string) : bool :=
  match s with
  | EmptyString => false
  | String c rest =>
      if Ascii.eqb c "-" || Ascii.eqb c "+"
      then negb (String.eqb rest "") && allDigits rest
      else allDigits s
  end.

(** The number a sequence of decimal digits denotes, read after a prefix
    that denotes [n]. *)
Fixpoint decimalValue (d : Decimal.uint) (n : Z) : Z :=
  match d with
  | Decimal.Nil => n
  | Decimal.D0 l => decimalValue l (n * 10 + 0)
  | Decimal.D1 l => decimalValue l (n * 10 + 1)
  | Decimal.D2 l => decimalValue l (n * 10 + 2)
  | Decimal.D3 l => decimalValue l (n * 10 + 3)
  | Decimal.D4 l => decimalValue l (n * 10 + 4)
  | Decimal.D5 l => decimalValue l (n * 10 + 5)
  | Decimal.D6 l => decimalValue l (n * 10 + 6)
  | Decimal.D7 l => decimalValue l (n * 10 + 7)
  | Decimal.D8 l => decimalValue l (n * 10 + 8)
  | Decimal.D9 l => decimalValue l (n * 10 + 9)
  end.

End GoLib.

(** ** Effects: a state monad that records the calls made to collaborators *)

Section Effects.
Context {E S : Type}.

Definition M (A : Type) : Type := S -> A * S * list E.

Definition ret {A} (a : A) : M A := fun s => (a, s, []).

Definition bind {A B} (m : M A) (k : A -> M B) : M B :=
  fun s =>
    let '(a, s1, t1) := m s in
    let '(b, s2, t2) := k a s1 in
    (b, s2, t1 ++ t2).

Definition emit (e : E) : M unit := fun s => (tt, s, [e]).
Definition get : M S := fun s => (s, s, []).
Definition put (s' : S) : M unit := fun _ => (tt, s', []).

Definition value {A} (r : A * S * list E) : A := r.1.1.
Definition state {A} (r : A * S * list E) : S := r.1.2.
Definition trace {A} (r : A * S * list E) : list E := r.2.
End Effects.
Arguments M : clear implicits.

Notation "'let*' x ':=' m 'in' k" := (bind m (fun x => k))
  (at level 10, x name, m at level 100, k at level 200).
Notation "m '>>' k" := (bind m (fun _ => k))
  (at level 100, k at level 200, right associativity).

(** ** pkg/client/connector/bridge.go *)

Module Connector.

(** worker names *)
Definition K8sBridgeWorker : string := "K8S".
Definition K8sSSHWorker : string := "SSH".

Definition ProxyRedirPort : string := "1234".

Definition kubectlErr : string := "kubectl version 1.10 or greater is required".

(** A [net.Conn] handle. *)
Definition conn := nat.

(** The two method values handed to [g.Go]. *)
Inductive worker := sshWorkerFn | bridgeWorkerFn.

(** The [bridge] struct.  Its [daemon] field is the gRPC client, whose
    answers are part of [world] below; [cancel] is nil until [start] stores
    the cancel function of the context it derives. *)
Record bridge := {
  sshPort : Z;
  namespace : string;
  cancel : option context
}.

Definition newBridge (namespace : string) (sshPort : Z) : bridge :=
  {| sshPort := sshPort; namespace := namespace; cancel := None |}.

(** The anonymous struct [info.ClientVersion] of [checkKubectl]. *)
Record clientVersion := { Major : string; Minor : string }.

Inductive logLevel := LogInfo | LogError.

(** Calls that leave the package.  [EvGo c name w] is [g.Go(name, w)] on
    the group [g := dgroup.ParentGroup(c)]. *)
Inductive event :=
| EvExec (c : context) (name : string) (args : list string)
| EvLog (lvl : logLevel) (format : string) (args : list fmtArg)
| EvSetDnsSearchPath (c : context) (paths : list string)
| EvGo (c : context) (name : string) (w : worker)
| EvDialTimeout (network address : string) (timeout : Z)
| EvReadLine (cn : conn)
| EvClose (cn : conn).

(** What the collaborators answer during one call. *)
Record world := {
  kubectlOutput : res string;                     (* [Output()] of the kubectl command *)
  jsonUnmarshal : string -> res clientVersion;    (* [json.Unmarshal] into [info] *)
  setDnsSearchPath : option error;                (* error of the SetDnsSearchPath RPC *)
  sshRun : option error;                          (* error of [ssh.Run()] *)
  ctxErr : option error;                          (* [c.Err()] when the worker asks *)
  dialTimeout : res conn;                         (* [net.DialTimeout] *)
  readLine : res string                           (* [bufio.Reader.ReadLine] *)
}.

Section WithWorld.
Variable w : world.

Definition checkKubectl (c : context) : M event bridge (option error) :=
  emit (EvExec c "kubectl" ["version"; "--client"; "-o"; "json"]) >>
  match kubectlOutput w with
  | Err err => ret (Some (ErrWrap err kubectlErr))
  | Ok output =>
      match jsonUnmarshal w output with
      | Err err => ret (Some (ErrWrap err kubectlErr))
      | Ok info =>
          match GoLib.Atoi (Major info) with
          | Err err => ret (Some (ErrWrap err kubectlErr))
          | Ok major =>
              match GoLib.Atoi (Minor info) with
              | Err err => ret (Some (ErrWrap err kubectlErr))
              | Ok minor =>
                  if negb (major =? 1) || (minor <? 10)
                  then ret (Some (ErrFmt "%s (found %d.%d)"
                                    [ArgStr kubectlErr; ArgInt major; ArgInt minor]))
                  else ret None
              end
          end
      end
  end.

Definition start (c : context) : M event bridge (option error) :=
  let* err := checkKubectl c in
  match err with
  | Some e => ret (Some e)
  | None =>
      let c' := CtxWithCancel c in
      let* br := get in
      put {| sshPort := sshPort br; namespace := namespace br; cancel := Some c' |} >>
      emit (EvGo c' K8sSSHWorker sshWorkerFn) >>
      emit (EvGo c' K8sBridgeWorker bridgeWorkerFn) >>
      ret None
  end.

Definition bridgeWorker (c : context) : M event bridge (option error) :=
  let* br := get in
  emit (EvLog LogInfo "kubernetes namespace=%s" [ArgStr (namespace br)]) >>
  let paths := [
    namespace br +:+ ".svc.cluster.local.";
    "svc.cluster.local.";
    "cluster.local.";
    ""
  ] in
  emit (EvLog LogInfo "Setting DNS search path: %s" [ArgStr (hd "" paths)]) >>
  emit (EvSetDnsSearchPath c paths) >>
  match setDnsSearchPath w with
  | Some err =>
      match ctxErr w with
      | Some _ => ret None
      | None => ret (Some (ErrFmt "error setting up search path: %v" [ArgErr err]))
      end
  | None => ret None
  end.

Definition sshWorker (c : context) : M event bridge (option error) :=
  let* br := get in
  emit (EvExec c "ssh" [
    "-F"; "none";
    "-C";
    "-oConnectTimeout=5";
    "-oStrictHostKeyChecking=no";
    "-oUserKnownHostsFile=/dev/null";
    "-N";
    "-oExitOnForwardFailure=yes";
    "-D"; "localhost:1080";
    "-p"; GoLib.Itoa (sshPort br);
    "telepresence@localhost"
  ]) >>
  match sshRun w with
  | Some err =>
      match ctxErr w with
      | Some _ => ret None
      | None => ret (Some err)
      end
  | None => ret None
  end.

Definition check (c : context) : M event bridge bool :=
  let* br := get in
  let address := "localhost:" +:+ GoLib.Itoa (sshPort br) in
  emit (EvDialTimeout "tcp" address (15 * Second)) >>
  match dialTimeout w with
  | Err err =>
      emit (EvLog LogError "fail to establish tcp connection to %s: %v"
              [ArgStr address; ArgErr err]) >>
      ret false
  | Ok cn =>
      (* [defer conn.Close()] runs when the body below has returned *)
      let* healthy :=
        (emit (EvReadLine cn) >>
         match readLine w with
         | Err err =>
             emit (EvLog LogError "tcp read: %v" [ArgErr err]) >>
             ret false
         | Ok msg =>
             if negb (GoLib.Contains msg "SSH")
             then emit (EvLog LogError "expected SSH prompt, got: %v" [ArgStr msg]) >>
                  ret false
             else ret true
         end) in
      emit (EvClose cn) >>
      ret healthy
  end.
End WithWorld.

(** Projections of a trace. *)
Definition dnsCalls (t : list event) : list (list string) :=
  omap (fun e => match e with EvSetDnsSearchPath _ paths => Some paths | _ => None end) t.

Definition spawned (t : list event) : list string :=
  omap (fun e => match e with EvGo _ name _ => Some name | _ => None end) t.

Definition errorLogs (t : list event) : list string :=
  omap (fun e => match e with EvLog LogError format _ => Some format | _ => None end) t.

(** The preflight passes: kubectl ran, its output parsed, and the client
    version is 1.x with x at least 10. *)
Definition versionOk (w : world) : Prop :=
  exists output info major minor,
    kubectlOutput w = Ok output /\
    jsonUnmarshal w output = Ok info /\
    GoLib.Atoi (Major info) = Ok major /\
    GoLib.Atoi (Minor info) = Ok minor /\
    major = 1 /\ 10 <= minor.

(** Further projections of a trace. *)
Definition execs (t : list event) : list (context * string * list string) :=
  omap (fun e => match e with EvExec c name args => Some (c, name, args) | _ => None end) t.

Definition dials (t : list event) : list (string * string * Z) :=
  omap (fun e => match e with EvDialTimeout n a d => Some (n, a, d) | _ => None end) t.

Definition reads (t : list event) : list conn :=
  omap (fun e => match e with EvReadLine cn => Some cn | _ => None end) t.

Definition closes (t : list event) : list conn :=
  omap (fun e => match e with EvClose cn => Some cn | _ => None end) t.

(** The argument that follows the first occurrence of a flag on a command line. *)
Fixpoint argAfter (flag : string) (args : list string) : option string :=
  match args with
  | [] => None
  | a :: rest => if String.eqb a flag then hd_error rest else argAfter flag rest
  end.

End Connector.

(** ** pkg/client/cli/daemon_state.go *)

Module Cli.

(** A [*grpc.ClientConn], and the [net.Conn] to a legacy daemon. *)
Definition clientConn := nat.
Definition netConn := nat.

(** [daemon.NewDaemonClient(conn)]. *)
Inductive daemonClient := NewDaemonClient (cn : clientConn).

(** The [daemonState] struct.  The embedded [*sessionInfo] is only read
    (for the command's output stream and context); a nil pointer is [None]. *)
Record daemonState := {
  conn : option clientConn;
  grpc : option daemonClient
}.

Definition legacySocketName : string := "/var/run/edgectl.socket".

Definition quote : string := String (ascii_of_nat 34) EmptyString.
Definition newline : string := String (ascii_of_nat 10) EmptyString.

(** The request written to a legacy daemon:
    [{"Args": ["edgectl", "quit"], "APIVersion": 1}]. *)
Definition legacyQuitRequest : string :=
  "{" +:+ quote +:+ "Args" +:+ quote +:+ ": [" +:+ quote +:+ "edgectl" +:+ quote +:+
  ", " +:+ quote +:+ "quit" +:+ quote +:+ "], " +:+ quote +:+ "APIVersion" +:+ quote +:+ ": 1}".

(** Calls that leave the package; the three [EvFprint*] write to
    [ds.cmd.OutOrStdout()]. *)
Inductive event :=
| EvFprint (operands : list fmtArg)
| EvFprintln (operands : list fmtArg)
| EvFprintf (format : string) (args : list fmtArg)
| EvSocketExists (name : string)
| EvQuit (c : context)
| EvConnClose (cn : clientConn)
| EvWaitUntilSocketVanishes (what name : string) (timeout : Z)
| EvWaitUntilSocketAppears (what name : string) (timeout : Z)
| EvRunAsRoot (exe : string) (args : list string)
| EvDialSocket (c : context) (name : string)
| EvNetDial (network address : string)
| EvWriteString (cn : netConn) (s : string)
| EvNetClose (cn : netConn).

(** Package [client], the package-level variables of [cli] that are set
    elsewhere, and what the collaborators answer during one call.  A failed
    [DialSocket] returns a nil connection; the legacy daemon's reply is the
    finite list of lines the scanner yields before the stream ends. *)
Record world := {
  DaemonSocketName : string;
  Logfile : string;
  DisplayVersion : string;
  GetExe : string;
  dnsIP : string;
  fallbackIP : string;
  errDaemonIsNotRunning : error;
  SocketExists : string -> bool;
  Quit : option error;
  WaitUntilSocketVanishes : option error;
  WaitUntilSocketAppears : option error;
  runAsRoot : option error;
  DialSocket : res clientConn;
  legacyDial : res netConn;
  legacyReply : list string
}.

(** [for ... { body }] over the items a finite stream yields. *)
Fixpoint forEach {A} (l : list A) (body : A -> M event daemonState unit)
  : M event daemonState unit :=
  match l with
  | [] => ret tt
  | x :: l' => body x >> forEach l' body
  end.

Section WithWorld.
Variable w : world.

(** isConnected returns true if a connection has been established to the daemon *)
Definition isConnected (ds : daemonState) : bool :=
  match conn ds with
  | Some _ => true
  | None => false
  end.

Definition assertDaemonStarted : M event daemonState (option error) :=
  emit (EvSocketExists (DaemonSocketName w)) >>
  if SocketExists w (DaemonSocketName w) then ret None
  else ret (Some (errDaemonIsNotRunning w)).

(** connect opens the client connection to the daemon. *)
Definition connect : M event daemonState (option error) :=
  let* ds := get in
  emit (EvDialSocket CtxCommand (DaemonSocketName w)) >>
  match DialSocket w with
  | Ok cn =>
      put {| conn := Some cn; grpc := Some (NewDaemonClient cn) |} >>
      ret None
  | Err err =>
      put {| conn := None; grpc := grpc ds |} >>
      ret (Some err)
  end.

(** disconnect closes the client connection to the daemon. *)
Definition disconnect : M event daemonState unit :=
  let* ds := get in
  let cn := conn ds in
  put {| conn := None; grpc := None |} >>
  match cn with
  | Some c => emit (EvConnClose c)
  | None => ret tt
  end.

Definition newDaemonState : M event daemonState (option error) :=
  put {| conn := None; grpc := None |} >>
  let* err := assertDaemonStarted in
  match err with
  | None => connect
  | Some e => ret (Some e)
  end.

(** quitLegacyDaemon ensures that an older version of the daemon quits
    and removes the old socket. *)
Definition quitLegacyDaemon : M event daemonState unit :=
  emit (EvSocketExists legacySocketName) >>
  if negb (SocketExists w legacySocketName) then ret tt
  else
    emit (EvNetDial "unix" legacySocketName) >>
    match legacyDial w with
    | Ok cn =>
        emit (EvWriteString cn legacyQuitRequest) >>
        forEach (legacyReply w) (fun text =>
          emit (EvFprintf ("Legacy daemon: %s" +:+ newline) [ArgStr text])) >>
        emit (EvNetClose cn)
    | Err _ => ret tt
    end.

Definition EnsureState : M event daemonState (bool * option error) :=
  let* ds := get in
  if isConnected ds then ret (false, None)
  else
    quitLegacyDaemon >>
    emit (EvFprintln [ArgStr "Launching Telepresence Daemon"; ArgStr (DisplayVersion w)]) >>
    emit (EvRunAsRoot (GetExe w) ["daemon-foreground"; dnsIP w; fallbackIP w]) >>
    match runAsRoot w with
    | Some err => ret (false, Some (ErrWrap err "failed to launch the server"))
    | None =>
        emit (EvWaitUntilSocketAppears "daemon" (DaemonSocketName w) (10 * Second)) >>
        match WaitUntilSocketAppears w with
        | Some _ =>
            ret (false,
                 Some (ErrFmt "daemon service did not start (see %s for more info)"
                         [ArgStr (Logfile w)]))
        | None =>
            let* err := connect in
            ret (match err with None => true | Some _ => false end, err)
        end
    end.

Definition DeactivateState : M event daemonState (option error) :=
  let* ds := get in
  if negb (isConnected ds) then ret None
  else
    emit (EvFprint [ArgStr "Telepresence Daemon quitting..."]) >>
    let* err :=
      (emit (EvSocketExists (DaemonSocketName w)) >>
       if SocketExists w (DaemonSocketName w)
       then emit (EvQuit CtxBackground) >> ret (Quit w)
       else ret None) in
    disconnect >>
    let* err :=
      (match err with
       | None =>
           emit (EvWaitUntilSocketVanishes "daemon" (DaemonSocketName w) (5 * Second)) >>
           ret (WaitUntilSocketVanishes w)
       | Some _ => ret err
       end) in
    match err with
    | None => emit (EvFprintln [ArgStr "done"])
    | Some _ => emit (EvFprintln [])
    end >>
    ret err.
End WithWorld.

(** The states the package can produce: a fresh [newDaemonState], then any
    sequence of [EnsureState] and [DeactivateState] calls. *)
Inductive reachable : daemonState -> Prop :=
| reach_new w ds0 : reachable (state (newDaemonState w ds0))
| reach_ensure w ds : reachable ds -> reachable (state (EnsureState w ds))
| reach_deactivate w ds : reachable ds -> reachable (state (DeactivateState w ds)).

(** Projections of a trace. *)
Definition quitCalls (t : list event) : list context :=
  omap (fun e => match e with EvQuit c => Some c | _ => None end) t.

Definition vanishPolls (t : list event) : list Z :=
  omap (fun e => match e with EvWaitUntilSocketVanishes _ _ d => Some d | _ => None end) t.

Definition closedConns (t : list event) : list clientConn :=
  omap (fun e => match e with EvConnClose cn => Some cn | _ => None end) t.

(** The calls expected of the handshake with a legacy daemon: probe the
    legacy socket; if it is there, dial it; if that works, send the quit
    request, relay every line of the reply, and close. *)
Definition legacyHandshake (w : world) : list event :=
  EvSocketExists legacySocketName ::
  if SocketExists w legacySocketName then
    EvNetDial "unix" legacySocketName ::
    match legacyDial w with
    | Ok cn =>
        EvWriteString cn legacyQuitRequest ::
        map (fun text => EvFprintf ("Legacy daemon: %s" +:+ newline) [ArgStr text])
            (legacyReply w) ++
        [EvNetClose cn]
    | Err _ => []
    end
  else [].

(** The invariant of reachable states: no RPC client without a connection. *)
Definition wellFormed (ds : daemonState) : Prop :=
  conn ds = None -> grpc ds = None.

(** Further projections of a trace. *)
Definition launches (t : list event) : list (string * list string) :=
  omap (fun e => match e with EvRunAsRoot exe args => Some (exe, args) | _ => None end) t.

Definition dialed (t : list event) : list (context * string) :=
  omap (fun e => match e with EvDialSocket c n => Some (c, n) | _ => None end) t.

Definition probes (t : list event) : list string :=
  omap (fun e => match e with EvSocketExists n => Some n | _ => None end) t.

Definition legacyDials (t : list event) : list string :=
  omap (fun e => match e with EvNetDial _ a => Some a | _ => None end) t.

Definition legacyWrites (t : list event) : list (netConn * string) :=
  omap (fun e => match e with EvWriteString cn s => Some (cn, s) | _ => None end) t.

Definition legacyCloses (t : list event) : list netConn :=
  omap (fun e => match e with EvNetClose cn => Some cn | _ => None end) t.

(** The texts relayed by [Fprintf] with a single string argument. *)
Definition relayed (t : list event) : list string :=
  omap (fun e => match e with EvFprintf _ [ArgStr text] => Some text | _ => None end) t.

(** The RPC client, if any, is the one built on the current connection. *)
Definition consistent (ds : daemonState) : Prop :=
  grpc ds = NewDaemonClient <$> conn ds.

End Cli.

(** ** The workload injection engine and the test helpers around it *)

Module Injection.

(** The workload kinds the engine accepts. *)
Inductive kind := Deployment | ReplicaSet | StatefulSet.

(** [intstr.IntOrString], the type of a service's target port. *)
Inductive intOrString :=
| IntPort (n : Z)
| NamedPort (s : string).

Global Instance intOrString_eq_dec : EqDecision intOrString.
Proof. solve_decision. Defined.

(** [metav1.ObjectMeta]; [creationTimestamp = None] is [metav1.Time{}]. *)
Record objectMeta := {
  name : string;
  resourceVersion : string;
  generation : Z;
  creationTimestamp : option Z;
  annotations : gmap string string
}.

Record containerPort := {
  portName : string;
  portNumber : Z
}.

(** A container of the pod template.  [proxyTo] is the port a sidecar is
    configured to proxy to; ordinary containers have none. *)
Record container := {
  cName : string;
  cImage : string;
  cPorts : list containerPort;
  proxyTo : option Z;
  TerminationMessagePath : string;
  TerminationMessagePolicy : string;
  ImagePullPolicy : string
}.

(** A [kates.Object] of one of the three kinds, with the containers of its
    pod template ([GetPodTemplateFromObject]). *)
Record workload := {
  wKind : kind;
  wMeta : objectMeta;
  wContainers : list container
}.

Record service := {
  sMeta : objectMeta;
  sTargetPort : intOrString
}.

(** *** Test helpers (from the test file) *)

Definition sanitizeMeta (m : objectMeta) : objectMeta :=
  {| name := name m;
     resourceVersion := "";
     generation := 0;
     creationTimestamp := None;
     annotations := annotations m |}.

Definition sanitizeContainer (c : container) : container :=
  {| cName := cName c;
     cImage := cImage c;
     cPorts := cPorts c;
     proxyTo := proxyTo c;
     TerminationMessagePath := "";
     TerminationMessagePolicy := "";
     ImagePullPolicy := "" |}.

Definition sanitizeWorkload (obj : workload) : workload :=
  {| wKind := wKind obj;
     wMeta := sanitizeMeta (wMeta obj);
     wContainers := map sanitizeContainer (wContainers obj) |}.

Definition sanitizeService (svc : service) : service :=
  {| sMeta := sanitizeMeta (sMeta svc);
     sTargetPort := sTargetPort svc |}.

(** *** The engine *)

Inductive injectError :=
| ErrPortNotFound
| ErrPortAmbiguous
| ErrAnnotationMissing
| ErrAnnotationUnreadable.

Inductive outcome (A : Type) :=
| Done (a : A)
| Failed (e : injectError).
Arguments Done {A} a.
Arguments Failed {A} e.

(** Modelled from the spec: the fixed conventions of the engine, which are
    named there but not spelled out (their declarations are absent from the
    sources): the sidecar's container name, the well-known annotation, the
    sidecar's listening port, and how a target port is written into and read
    back from an annotation value. *)
Record conventions := {
  agentContainerName : string;
  annotation : string;
  agentPort : Z;
  encodePort : intOrString -> string;
  decodePort : string -> option intOrString
}.


Definition setAnnotation (k v : string) (m : objectMeta) : objectMeta :=
  {| name := name m;
     resourceVersion := resourceVersion m;
     generation := generation m;
     creationTimestamp := creationTimestamp m;
     annotations := <[k := v]> (annotations m) |}.

Definition deleteAnnotation (k : string) (m : objectMeta) : objectMeta :=
  {| name := name m;
     resourceVersion := resourceVersion m;
     generation := generation m;
     creationTimestamp := creationTimestamp m;
     annotations := delete k (annotations m) |}.

(** Modelled from the spec: a container port "matches" a name by its name
    and a number by its number; a container "exposes" what one of its ports
    matches. *)
Definition matchesPort (key : intOrString) (p : containerPort) : bool :=
  match key with
  | NamedPort n => String.eqb (portName p) n
  | IntPort n => portNumber p =? n
  end.

Definition exposes (key : intOrString) (c : container) : bool :=
  existsb (matchesPort key) (cPorts c).

Section WithConventions.
Variable cv : conventions.

(** Modelled from the spec: the sidecar is "detected by its conventional
    name". *)
Definition isAgent (c : container) : bool :=
  String.eqb (cName c) (agentContainerName cv).

Definition hasAgent (w : workload) : bool :=
  existsb isAgent (wContainers w).

(** Modelled from the spec: the sidecar container that
    [addAgentToWorkload] appends (that function is absent from the
    sources).  "A sidecar container named by a fixed convention, pointed
    at agentImage, configured to proxy to the original container's port". *)
Definition agentContainer (agentImage : string) (appPort : Z) : container :=
  {| cName := agentContainerName cv;
     cImage := agentImage;
     cPorts := [ {| portName := ""; portNumber := agentPort cv |} ];
     proxyTo := Some appPort;
     TerminationMessagePath := "";
     TerminationMessagePolicy := "";
     ImagePullPolicy := "" |}.

(** Modelled from the spec: what the port is looked up by, "portName (or
    the service's target port if portName is empty)". *)
Definition portKey (portName : string) (svc : option service) : option intOrString :=
  if String.eqb portName "" then sTargetPort <$> svc
  else Some (NamedPort portName).

(** Modelled from the spec: [addAgentToWorkload], absent from the sources
    (only its tests are present).  Following section 4.4:
    - if the sidecar is already present, detected by its conventional
      name, no change is made and the input is returned;
    - the container whose exposed port matches is located; zero or more
      than one candidate is an error;
    - on a copy, the sidecar is appended, the service's target port is
      rewritten to the sidecar's listening port, and the original target
      port is recorded in the well-known annotation (on the workload, and
      on the rewritten service, which is all [undoServiceMods] receives);
    - the service is returned only if it was changed. *)
Definition addAgentToWorkload (portName agentImage : string)
    (w : workload) (svc : option service)
  : outcome (workload * option service) :=
  if hasAgent w then Done (w, svc)
  else
    match portKey portName svc with
    | None => Failed ErrPortNotFound
    | Some key =>
        match List.filter (exposes key) (wContainers w) with
        | [] => Failed ErrPortNotFound
        | [c] =>
            match List.find (matchesPort key) (cPorts c) with
            | None => Failed ErrPortNotFound
            | Some p =>
                let original :=
                  match svc with
                  | Some s => sTargetPort s
                  | None => key
                  end in
                let w' :=
                  {| wKind := wKind w;
                     wMeta := setAnnotation (annotation cv) (encodePort cv original) (wMeta w);
                     wContainers :=
                       wContainers w ++ [agentContainer agentImage (portNumber p)] |} in
                let svc' :=
                  match svc with
                  | Some s =>
                      if decide (sTargetPort s = IntPort (agentPort cv)) then None
                      else Some
                        {| sMeta := setAnnotation (annotation cv)
                                      (encodePort cv (sTargetPort s)) (sMeta s);
                           sTargetPort := IntPort (agentPort cv) |}
                  | None => None
                  end in
                Done (w', svc')
            end
        | _ => Failed ErrPortAmbiguous
        end
    end.

(** Modelled from the spec: [undoObjectMods], absent from the sources.
    A no-op when no sidecar is present; a failure when the sidecar is
    present but the annotation is missing; otherwise the sidecar and the
    annotation are removed. *)
Definition undoObjectMods (w : workload) : outcome workload :=
  if negb (hasAgent w) then Done w
  else
    match annotations (wMeta w) !! annotation cv with
    | None => Failed ErrAnnotationMissing
    | Some _ =>
        Done {| wKind := wKind w;
                wMeta := deleteAnnotation (annotation cv) (wMeta w);
                wContainers := List.filter (fun c => negb (isAgent c)) (wContainers w) |}
    end.


(** The service a caller goes on with: a nil service returned by
    [addAgentToWorkload] means the original one is unchanged (the tests
    substitute a copy of the input service for a nil result). *)
Definition effective (returned original : option service) : option service :=
  match returned with
  | Some s => Some s
  | None => original
  end.

End WithConventions.


(** *** What the comparison of sanitized objects still looks at *)

Definition sameContainer (c1 c2 : container) : Prop :=
  cName c1 = cName c2 /\ cImage c1 = cImage c2 /\
  cPorts c1 = cPorts c2 /\ proxyTo c1 = proxyTo c2.

Definition sameWorkload (w1 w2 : workload) : Prop :=
  wKind w1 = wKind w2 /\
  name (wMeta w1) = name (wMeta w2) /\
  annotations (wMeta w1) = annotations (wMeta w2) /\
  Forall2 sameContainer (wContainers w1) (wContainers w2).

Definition sameService (s1 s2 : service) : Prop :=
  name (sMeta s1) = name (sMeta s2) /\
  annotations (sMeta s1) = annotations (sMeta s2) /\
  sTargetPort s1 = sTargetPort s2.

End Injection.

(** ** The helpers of the connector's test file *)

Module ConnectorTest.

Definition Millisecond : Z := 1000000.

(** The package-level variables the helpers read: those of the test file,
    and [managerNamespace] of the package under test. *)
Record globals := {
  kubeconfig : string;
  namespace : string;
  registry : string;
  testVersion : string;
  managerTestNamespace : string;
  managerNamespace : string;
  imageName : string
}.

(** How a helper ends: it returns, [t.Fatal] stops the test, or [log.Fatalf]
    exits the process. *)
Inductive flow := Continues | TestStopped | ProcessExited.

(** A [*testing.T], or nil. *)
Inductive testingT := T.

(** Calls that leave the test file.  [EvCommand] is a [dexec] command that
    is run; its [env] is [cmd.Env], [None] when the field is not set. *)
Inductive event :=
| EvPrint (operands : list string)
| EvPrintln (operands : list string)
| EvCommand (c : context) (name : string) (args : list string) (env : option (list string))
| EvSleep (d : Z)
| EvHelper
| EvFatal (args : list fmtArg)
| EvFatalf (format : string) (args : list fmtArg)
| EvLogFatalf (format : string) (args : list fmtArg)
| EvLogSetOutput
| EvSetVersion (v : string)
| EvSetenv (key value : string)
| EvWithMachineLock
| EvRunTests
| EvExit (code : Z).

(** What the collaborators answer: the k-th [kubectl get] of the deployment
    and of the service, the [make] run, [os.Environ()], the docker registry,
    [client.RunError], the test context, the command run by [capture] (by
    its command line), the kubeconfig of [dtest], the process id, and the
    exit code of [m.Run()]. *)
Record world := {
  getDeployment : nat -> option error;
  getService : nat -> option error;
  makeRun : option error;
  Environ : list string;
  DockerRegistry : string;
  RunError : error -> error;
  NewTestContext : context;
  CombinedOutput : string -> list string -> string * option error;
  Kubeconfig : string;
  Getpid : Z;
  mRun : Z
}.

Definition includeEnv : list string :=
  ["KO_DOCKER_REPO="; "HOME="; "PATH="; "LOGNAME="; "TMPDIR="; "MAKELEVEL="].

(** The inner loop of [publishManager]:
    [for _, incl := range includeEnv { if HasPrefix(env, incl) { append; break } }]. *)
Fixpoint includeLoop (incls : list string) (env : string) (cmdEnv : list string)
  : list string :=
  match incls with
  | [] => cmdEnv
  | incl :: rest =>
      if String.prefix incl env then cmdEnv ++ [env]
      else includeLoop rest env cmdEnv
  end.

(** The outer loop, over [os.Environ()]. *)
Definition environLoop (environ : list string) (cmdEnv : list string) : list string :=
  fold_left (fun acc env => includeLoop includeEnv env acc) environ cmdEnv.

(** [for _, arg := range args { fmt.Print(" ", arg) }]. *)
Fixpoint printEach (args : list string) : M event globals unit :=
  match args with
  | [] => ret tt
  | arg :: rest => emit (EvPrint [" "; arg]) >> printEach rest
  end.

Section WithWorld.
Variable w : world.

Definition showArgs (exe : string) (args : list string) : M event globals unit :=
  emit (EvPrint ["+ "]) >>
  emit (EvPrint [exe]) >>
  printEach args >>
  emit (EvPrintln []).

Definition capture (t : option testingT) (exe : string) (args : list string)
  : M event globals (flow * string) :=
  showArgs exe args >>
  let ctx := match t with
             | Some _ => NewTestContext w
             | None => CtxBackground
             end in
  emit (EvCommand ctx exe args None) >>
  let '(sout, err) := CombinedOutput w exe args in
  match err with
  | Some e =>
      match t with
      | Some _ =>
          emit (EvFatalf ("%s" +:+ Cli.newline +:+ "%v") [ArgStr sout; ArgErr e]) >>
          ret (TestStopped, sout)
      | None =>
          emit (EvLogFatalf ("%s" +:+ Cli.newline +:+ "%v") [ArgStr sout; ArgErr e]) >>
          ret (ProcessExited, sout)
      end
  | None => ret (Continues, sout)
  end.

(** [kubectl --kubeconfig <kubeconfig> <verb> namespace <ns> ...]. *)
Definition kubectlNamespace (kubeconfig : string) (verb ns : string) (more : list string)
  : list string :=
  ["--kubeconfig"; kubeconfig; verb; "namespace"; ns] ++ more.

(** [TestMain]; the result is the exit code of the process, which ends
    either in [os.Exit(exitCode)] or, without running what was deferred, in
    the [log.Fatalf] of a failed [capture].  [dtest.WithMachineLock] is taken
    to run its function once. *)
Definition TestMain : M event globals Z :=
  emit EvLogSetOutput >>
  let* g := get in
  let kubeconfig' := Kubeconfig w in
  let testVersion' := "v2.0.0-gotest." +:+ GoLib.Itoa (Getpid w) in
  let namespace' := "telepresence-" +:+ GoLib.Itoa (Getpid w) in
  let managerTestNamespace' := "ambassador-" +:+ GoLib.Itoa (Getpid w) in
  let registry' := DockerRegistry w in
  put {| kubeconfig := kubeconfig';
         namespace := namespace';
         registry := registry';
         testVersion := testVersion';
         managerTestNamespace := managerTestNamespace';
         managerNamespace := managerNamespace g;
         imageName := imageName g |} >>
  emit (EvSetVersion testVersion') >>
  emit (EvSetenv "DTEST_KUBECONFIG" kubeconfig') >>
  emit (EvSetenv "KO_DOCKER_REPO" registry') >>
  emit (EvSetenv "TELEPRESENCE_REGISTRY" registry') >>
  emit EvWithMachineLock >>
  let* created :=
    capture None "kubectl" (kubectlNamespace kubeconfig' "create" namespace' []) in
  match fst created with
  | Continues =>
      emit EvRunTests >>
      let exitCode := mRun w in
      (* deferred calls, the last one registered first *)
      let* deleted :=
        capture None "kubectl"
          (kubectlNamespace kubeconfig' "delete" managerTestNamespace' ["--wait=false"]) in
      match fst deleted with
      | Continues =>
          let* deleted :=
            capture None "kubectl"
              (kubectlNamespace kubeconfig' "delete" namespace' ["--wait=false"]) in
          match fst deleted with
          | Continues => emit (EvExit exitCode) >> ret exitCode
          | _ => ret 1
          end
      | _ => ret 1
      end
  | _ => ret 1
  end.

Definition publishManager (ctx : context) : M event globals flow :=
  emit EvHelper >>
  let* g := get in
  if negb (String.eqb (imageName g) "") then ret Continues
  else
    let cmdEnv := [
      "TELEPRESENCE_VERSION=" +:+ testVersion g;
      "TELEPRESENCE_REGISTRY=" +:+ DockerRegistry w
    ] in
    let cmdEnv := environLoop (Environ w) cmdEnv in
    emit (EvCommand ctx "make" ["-C"; "../../.."; "push-image"] (Some cmdEnv)) >>
    match makeRun w with
    | Some err => emit (EvFatal [ArgErr (RunError w err)]) >> ret TestStopped
    | None => ret Continues
    end.

(** [for cnt := ...; cnt < ...; cnt++ { run cmd; if err != nil { gone = true;
    break }; time.Sleep(500 * time.Millisecond) }], with [left] iterations to
    go; the result is [gone]. *)
Fixpoint pollGone (probe : nat -> option error) (cmd : event) (cnt left : nat)
  : M event globals bool :=
  match left with
  | O => ret false
  | S left' =>
      emit cmd >>
      match probe cnt with
      | Some _ => ret true
      | None => emit (EvSleep (500 * Millisecond)) >> pollGone probe cmd (S cnt) left'
      end
  end.

Definition kubectlManager (ctx : context) (g : globals) (verb : list string) : event :=
  EvCommand ctx "kubectl"
    (["--kubeconfig"; kubeconfig g; "--namespace"; managerNamespace g] ++ verb) None.

Definition removeManager (ctx : context) : M event globals flow :=
  let* g := get in
  (* Remove service and deployment *)
  emit (kubectlManager ctx g ["delete"; "svc,deployment"; "traffic-manager"]) >>
  (* Wait until getting them fails *)
  let* gone :=
    pollGone (getDeployment w)
      (kubectlManager ctx g ["get"; "deployment"; "traffic-manager"]) 0 10 in
  if negb gone
  then emit (EvFatal [ArgStr "timeout waiting for deployment to vanish"]) >> ret TestStopped
  else
    let* gone :=
      pollGone (getService w)
        (kubectlManager ctx g ["get"; "svc"; "traffic-manager"]) 0 10 in
    if negb gone
    then emit (EvFatal [ArgStr "timeout waiting for service to vanish"]) >> ret TestStopped
    else ret Continues.
End WithWorld.

(** Projections of a trace. *)
Definition commands (t : list event) : list (string * list string) :=
  omap (fun e => match e with EvCommand _ n a _ => Some (n, a) | _ => None end) t.

Definition environments (t : list event) : list (option (list string)) :=
  omap (fun e => match e with EvCommand _ _ _ env => Some env | _ => None end) t.

Definition sleeps (t : list event) : list Z :=
  omap (fun e => match e with EvSleep d => Some d | _ => None end) t.

Definition fatals (t : list event) : list (list fmtArg) :=
  omap (fun e => match e with EvFatal a => Some a | _ => None end) t.

Definition testRuns (t : list event) : nat :=
  length (omap (fun e => match e with EvRunTests => Some tt | _ => None end) t).

(** What [fmt.Print] and [fmt.Println] write for string operands: [Print]
    puts nothing between two strings, [Println] puts a space between
    operands and ends the line. *)
Definition printed (t : list event) : string :=
  fold_right String.append ""
    (omap (fun e => match e with
                    | EvPrint ops => Some (fold_right String.append "" ops)
                    | EvPrintln ops => Some (String.concat " " ops +:+ Cli.newline)
                    | _ => None
                    end) t).

(** Whether a variable of the environment is on the list of [publishManager]. *)
Definition included (env : string) : bool :=
  existsb (fun incl => String.prefix incl env) includeEnv.

(** One round of a polling loop that did not see the object gone. *)
Definition round (cmd : event) : list event := [cmd; EvSleep (500 * Millisecond)].

(** The first attempt, if any among the ten, at which the probe fails. *)
Fixpoint firstGone (probe : nat -> option error) (cnt left : nat) : option nat :=
  match left with
  | O => None
  | S left' =>
      match probe cnt with
      | Some _ => Some cnt
      | None => firstGone probe (S cnt) left'
      end
  end.

End ConnectorTest.

(** ** pkg/client/cli/preview.go *)

Module Preview.

(** Values of the manager's RPC package, as far as this file looks into
    them: an ingress ([*manager.IngressInfo]), an intercept
    ([*manager.InterceptInfo]) and a session are opaque here. *)
Definition ingressInfo := string.
Definition interceptInfo := string.
Definition sessionInfo := string.

(** [manager.PreviewSpec]. *)
Record previewSpec := {
  Ingress : option ingressInfo;
  DisplayBanner : bool
}.

(** The [PreviewDomainAction] of an [UpdateInterceptRequest].  The request of
    [create] holds a pointer to [createSpec]; it is modelled by the value
    [createSpec] has when the call is made. *)
Inductive previewDomainAction :=
| AddPreviewDomain (spec : previewSpec)
| RemovePreviewDomain (remove : bool).

Record updateInterceptRequest := {
  Session : sessionInfo;
  Name : string;
  PreviewDomainAction : previewDomainAction
}.

Inductive event :=
| EvBoolVarP (name shorthand : string) (value : bool) (usage : string)
| EvEnsureLoggedIn
| EvSelectIngress
| EvUpdateIntercept (c : context) (req : updateInterceptRequest)
| EvPrintln (text : string).

(** What the collaborators answer during one run of a command. *)
Record world := {
  EnsureLoggedIn : option error;           (* [auth.EnsureLoggedIn(cmd)] *)
  SessionInfo : sessionInfo;               (* [cs.info.SessionInfo] *)
  selectIngress : res ingressInfo;         (* [cs.selectIngress(in, out)], non-nil on success *)
  UpdateIntercept : res interceptInfo;     (* [cs.managerClient.UpdateIntercept] *)
  DescribeIntercept : interceptInfo -> bool -> string
}.

(** How a [RunE] function ends: it returns an error or nil, or [args[0]]
    panics on an empty argument list. *)
Inductive outcome :=
| Returns (err : option error)
| PanicsIndexOutOfRange.

(** The state is the variable [createSpec] that the closures of
    [previewCommand] share.  [pflag]'s [BoolVarP] stores the default in the
    variable it is given. *)
Definition addPreviewFlags (prefix : string) : M event previewSpec unit :=
  let* spec := get in
  emit (EvBoolVarP (prefix +:+ "banner") "b" true "Display banner on preview page") >>
  put {| Ingress := Ingress spec; DisplayBanner := true |}.

Section WithWorld.
Variable w : world.

(** [si.withConnector], which this file calls but does not define. *)
Variable withConnector :
  bool -> M event previewSpec outcome -> M event previewSpec outcome.

(** The function [create] hands to [withConnector]. *)
Definition createWithConnector (args : list string) : M event previewSpec outcome :=
  let* createSpec := get in
  let* err :=
    (match Ingress createSpec with
     | None =>
         emit EvSelectIngress >>
         match selectIngress w with
         | Err err => ret (Some err)
         | Ok ingress =>
             put {| Ingress := Some ingress; DisplayBanner := DisplayBanner createSpec |} >>
             ret None
         end
     | Some _ => ret None
     end) in
  match err with
  | Some e => ret (Returns (Some e))
  | None =>
      match args with
      | [] => ret PanicsIndexOutOfRange
      | name :: _ =>
          let* createSpec := get in
          emit (EvUpdateIntercept CtxCommand
                  {| Session := SessionInfo w;
                     Name := name;
                     PreviewDomainAction := AddPreviewDomain createSpec |}) >>
          match UpdateIntercept w with
          | Err err => ret (Returns (Some err))
          | Ok intercept =>
              emit (EvPrintln (DescribeIntercept w intercept false)) >>
              ret (Returns None)
          end
      end
  end.

(** The [RunE] of [preview create]. *)
Definition createRunE (args : list string) : M event previewSpec outcome :=
  emit EvEnsureLoggedIn >>
  match EnsureLoggedIn w with
  | Some err => ret (Returns (Some err))
  | None => withConnector true (createWithConnector args)
  end.

(** The function [remove] hands to [withConnector]. *)
Definition removeWithConnector (args : list string) : M event previewSpec outcome :=
  match args with
  | [] => ret PanicsIndexOutOfRange
  | name :: _ =>
      emit (EvUpdateIntercept CtxCommand
              {| Session := SessionInfo w;
                 Name := name;
                 PreviewDomainAction := RemovePreviewDomain true |}) >>
      match UpdateIntercept w with
      | Err err => ret (Returns (Some err))
      | Ok intercept =>
          emit (EvPrintln (DescribeIntercept w intercept false)) >>
          ret (Returns None)
      end
  end.

(** The [RunE] of [preview remove]. *)
Definition removeRunE (args : list string) : M event previewSpec outcome :=
  withConnector true (removeWithConnector args).
End WithWorld.

(** [var createSpec manager.PreviewSpec], before any flag is registered. *)
Definition zeroSpec : previewSpec := {| Ingress := None; DisplayBanner := false |}.

(** Projections of a trace. *)
Definition updates (t : list event) : list updateInterceptRequest :=
  omap (fun e => match e with EvUpdateIntercept _ req => Some req | _ => None end) t.

Definition selections (t : list event) : nat :=
  length (omap (fun e => match e with EvSelectIngress => Some tt | _ => None end) t).

Definition printlns (t : list event) : list string :=
  omap (fun e => match e with EvPrintln s => Some s | _ => None end) t.

End Preview.

(** * Concrete inputs *)

Module ConnectorSamples.
Import Connector.

(** A world in which everything works and kubectl reports 1.18. *)
Definition healthy : world :=
  {| kubectlOutput := Ok "{...}";
     jsonUnmarshal := fun _ => Ok {| Major := "1"; Minor := "18" |};
     setDnsSearchPath := None;
     sshRun := None;
     ctxErr := None;
     dialTimeout := Ok 7%nat;
     readLine := Ok "SSH-2.0-OpenSSH_8.1" |}.

(** The bridge is torn down while both workers are blocked: the RPC and
    the ssh process fail, and the context reports the cancellation. *)
Definition tornDown : world :=
  {| kubectlOutput := kubectlOutput healthy;
     jsonUnmarshal := jsonUnmarshal healthy;
     setDnsSearchPath := Some (ErrExternal "rpc error: code = Canceled");
     sshRun := Some (ErrExternal "signal: killed");
     ctxErr := Some (ErrExternal "context canceled");
     dialTimeout := Err (ErrExternal "connection refused");
     readLine := Err (ErrExternal "EOF") |}.

(** A kubectl whose distribution reports the minor version as 18+. *)
Definition suffixed : world :=
  {| kubectlOutput := Ok "{...}";
     jsonUnmarshal := fun _ => Ok {| Major := "1"; Minor := "18+" |};
     setDnsSearchPath := None;
     sshRun := None;
     ctxErr := None;
     dialTimeout := Ok 7%nat;
     readLine := Ok "SSH-2.0-OpenSSH_8.1" |}.

Definition br0 : bridge := newBridge "default" 2222.
End ConnectorSamples.

Module CliSamples.
Import Cli.

Definition plain : world :=
  {| DaemonSocketName := "/var/run/telepresence-daemon.socket";
     Logfile := "/tmp/telepresence.log";
     DisplayVersion := "v2.0.0";
     GetExe := "/usr/local/bin/telepresence";
     dnsIP := "";
     fallbackIP := "";
     errDaemonIsNotRunning := ErrExternal "the telepresence daemon has not been started";
     SocketExists := fun n => String.eqb n "/var/run/telepresence-daemon.socket";
     Quit := None;
     WaitUntilSocketVanishes := None;
     WaitUntilSocketAppears := None;
     runAsRoot := None;
     DialSocket := Ok 1%nat;
     legacyDial := Err (ErrExternal "no such file");
     legacyReply := [] |}.

(** The daemon died: the connection object is still held, the socket is gone. *)
Definition socketGone : world :=
  {| DaemonSocketName := DaemonSocketName plain;
     Logfile := Logfile plain;
     DisplayVersion := DisplayVersion plain;
     GetExe := GetExe plain;
     dnsIP := dnsIP plain;
     fallbackIP := fallbackIP plain;
     errDaemonIsNotRunning := errDaemonIsNotRunning plain;
     SocketExists := fun _ => false;
     Quit := None;
     WaitUntilSocketVanishes := None;
     WaitUntilSocketAppears := None;
     runAsRoot := None;
     DialSocket := Ok 1%nat;
     legacyDial := legacyDial plain;
     legacyReply := [] |}.

(** The daemon is there but the Quit RPC fails. *)
Definition quitFails : world :=
  {| DaemonSocketName := DaemonSocketName plain;
     Logfile := Logfile plain;
     DisplayVersion := DisplayVersion plain;
     GetExe := GetExe plain;
     dnsIP := dnsIP plain;
     fallbackIP := fallbackIP plain;
     errDaemonIsNotRunning := errDaemonIsNotRunning plain;
     SocketExists := fun _ => true;
     Quit := Some (ErrExternal "rpc error: code = Unavailable");
     WaitUntilSocketVanishes := None;
     WaitUntilSocketAppears := None;
     runAsRoot := None;
     DialSocket := Ok 1%nat;
     legacyDial := legacyDial plain;
     legacyReply := [] |}.

Definition connected : daemonState :=
  {| conn := Some 1%nat; grpc := Some (NewDaemonClient 1%nat) |}.

Definition fresh : daemonState := {| conn := None; grpc := None |}.
End CliSamples.

Module InjectionSamples.
Import Injection.

(** One lossless way to write a target port into an annotation value. *)
Definition writePort (p : intOrString) : string :=
  match p with
  | IntPort n => "int:" +:+ GoLib.Itoa n
  | NamedPort s => "str:" +:+ s
  end.

Definition readPort (v : string) : option intOrString :=
  match v with
  | String "i" (String "n" (String "t" (String ":" digits))) =>
      (fun d => IntPort (Z.of_int d)) <$> NilZero.int_of_string digits
  | String "s" (String "t" (String "r" (String ":" s))) => Some (NamedPort s)
  | _ => None
  end.

Definition telepresence : conventions :=
  {| agentContainerName := "traffic-agent";
     annotation := "telepresence.getambassador.io/actions";
     agentPort := 9900;
     encodePort := writePort;
     decodePort := readPort |}.

Definition meta (n : string) : objectMeta :=
  {| name := n; resourceVersion := "4711"; generation := 3;
     creationTimestamp := Some 1600000000; annotations := ∅ |}.

Definition app : container :=
  {| cName := "app"; cImage := "app:1.0";
     cPorts := [ {| portName := "http"; portNumber := 8080 |} ];
     proxyTo := None;
     TerminationMessagePath := "/dev/termination-log";
     TerminationMessagePolicy := "File";
     ImagePullPolicy := "IfNotPresent" |}.

(** The deployment of the specification's scenario, and a service for it. *)
Definition dep : workload :=
  {| wKind := Deployment; wMeta := meta "hello"; wContainers := [app] |}.

Definition svc : service :=
  {| sMeta := meta "hello"; sTargetPort := IntPort 8080 |}.

(** [dep] with the sidecar injected. *)
Definition injected : workload :=
  {| wKind := Deployment;
     wMeta := setAnnotation "telepresence.getambassador.io/actions" "str:http" (meta "hello");
     wContainers := [app; agentContainer telepresence "agent:1.0" 8080] |}.


End InjectionSamples.

Module ConnectorSamples2.
Import Connector ConnectorSamples.

(** A kubectl of a future major version. *)
Definition kubectl2 : world :=
  {| kubectlOutput := Ok "{...}";
     jsonUnmarshal := fun _ => Ok {| Major := "2"; Minor := "0" |};
     setDnsSearchPath := None;
     sshRun := None;
     ctxErr := None;
     dialTimeout := Ok 7%nat;
     readLine := Ok "SSH-2.0-OpenSSH_8.1" |}.

(** The workers' calls succeed although the context is already cancelled. *)
Definition lateCancel : world :=
  {| kubectlOutput := kubectlOutput healthy;
     jsonUnmarshal := jsonUnmarshal healthy;
     setDnsSearchPath := None;
     sshRun := None;
     ctxErr := Some (ErrExternal "context canceled");
     dialTimeout := dialTimeout healthy;
     readLine := readLine healthy |}.
End ConnectorSamples2.

Module CliSamples2.
Import Cli CliSamples.

(** A legacy daemon is still around and answers the quit request. *)
Definition withLegacy : world :=
  {| DaemonSocketName := DaemonSocketName plain;
     Logfile := Logfile plain;
     DisplayVersion := DisplayVersion plain;
     GetExe := GetExe plain;
     dnsIP := dnsIP plain;
     fallbackIP := fallbackIP plain;
     errDaemonIsNotRunning := errDaemonIsNotRunning plain;
     SocketExists := fun _ => true;
     Quit := None;
     WaitUntilSocketVanishes := None;
     WaitUntilSocketAppears := None;
     runAsRoot := None;
     DialSocket := Ok 2%nat;
     legacyDial := Ok 9%nat;
     legacyReply := ["Edge Control Daemon quitting..."; "done"] |}.
End CliSamples2.

Module ConnectorTestSamples.
Import ConnectorTest.

Definition vars : globals :=
  {| kubeconfig := "/tmp/kubeconfig";
     namespace := "telepresence-4242";
     registry := "localhost:5000";
     testVersion := "v2.0.0-gotest.4242";
     managerTestNamespace := "ambassador-4242";
     managerNamespace := "ambassador-4242";
     imageName := "" |}.

(** The deployment is gone at the third get, the service at the first; the
    environment holds Go's own variables next to the usual ones. *)
Definition cluster : world :=
  {| getDeployment := fun k => if (k <? 2)%nat then None else Some (ErrExternal "exit status 1");
     getService := fun _ => Some (ErrExternal "exit status 1");
     makeRun := None;
     Environ := ["GOOS=linux"; "HOME=/root"; "GOARCH=amd64"; "PATH=/usr/bin"; "SHELL=/bin/sh"];
     DockerRegistry := "localhost:5000";
     RunError := fun e => e;
     NewTestContext := CtxCommand;
     CombinedOutput := fun _ _ => ("namespace/telepresence-4242 created", None);
     Kubeconfig := "/tmp/kubeconfig";
     Getpid := 4242;
     mRun := 0 |}.

(** Deleting a namespace fails, everything else works. *)
Definition stuck : world :=
  {| getDeployment := getDeployment cluster;
     getService := getService cluster;
     makeRun := None;
     Environ := Environ cluster;
     DockerRegistry := DockerRegistry cluster;
     RunError := RunError cluster;
     NewTestContext := CtxCommand;
     CombinedOutput := fun _ args =>
       if existsb (String.eqb "delete") args
       then ("Error from server", Some (ErrExternal "exit status 1"))
       else ("", None);
     Kubeconfig := "/tmp/kubeconfig";
     Getpid := 4242;
     mRun := 0 |}.
End ConnectorTestSamples.

Module PreviewSamples.
Import Preview.

Definition manager : world :=
  {| EnsureLoggedIn := None;
     SessionInfo := "session-1";
     selectIngress := Ok "ingress.default:80";
     UpdateIntercept := Ok "hello-intercept";
     DescribeIntercept := fun info _ => info |}.

(** The user is not logged in and the login fails. *)
Definition loggedOut : world :=
  {| EnsureLoggedIn := Some (ErrExternal "login failed");
     SessionInfo := "";
     selectIngress := Err (ErrExternal "no ingress");
     UpdateIntercept := Err (ErrExternal "unavailable");
     DescribeIntercept := fun info _ => info |}.

(** A connector wrapper that just runs the function it is given. *)
Definition runDirectly (retain : bool) (f : M event previewSpec outcome)
  : M event previewSpec outcome := f.
End PreviewSamples.

(** * Properties *)

(** Unfold the monad down to pairs. *)
Ltac run :=
  unfold value, state, trace, bind, ret, emit, get, put; cbn.

(** ** strconv *)

Module GoLibFacts.
Import GoLib.

Lemma atoiDigits_allDigits s : forall n v,
  atoiDigits s n = inr v -> allDigits s = true.
Proof.
  induction s as [|ch s IH]; intros n v H; cbn in *; [reflexivity|].
  destruct ((0 <=? byteOf ch - 48) && (byteOf ch - 48 <=? 9)) eqn:Hd; [|discriminate].
  destruct (n >=? maxUint64 / 10 + 1); [discriminate|].
  destruct (n * 10 + (byteOf ch - 48) >? maxUint64); [discriminate|].
  cbn. eauto.
Qed.

Lemma Atoi_decimalString s v : Atoi s = Ok v -> decimalString s = true.
Proof.
  destruct s as [|c rest]; cbn; [discriminate|].
  destruct (Ascii.eqb c "-" || Ascii.eqb c "+") eqn:Hsign.
  - destruct rest as [|c' rest']; [discriminate|].
    destruct (atoiDigits (String c' rest') 0) as [k|n] eqn:Hn; [discriminate|].
    intros _. cbn [negb String.eqb andb].
    eapply atoiDigits_allDigits; eassumption.
  - destruct (atoiDigits (String c rest) 0) as [k|n] eqn:Hn; [discriminate|].
    intros _. change (allDigits (String c rest) = true).
    eapply atoiDigits_allDigits; eassumption.
Qed.

Example Atoi_18 : Atoi "18" = Ok 18.
Proof. reflexivity. Qed.

Example Atoi_18_plus : Atoi "18+" = Err (ErrNum "Atoi" "18+" ErrSyntax).
Proof. reflexivity. Qed.

Example Atoi_signed : Atoi "+1" = Ok 1 /\ Atoi "-3" = Ok (-3) /\ Atoi "+" = Err (ErrNum "Atoi" "+" ErrSyntax).
Proof. repeat split. Qed.

Example Atoi_range :
  Atoi "9223372036854775807" = Ok 9223372036854775807 /\
  Atoi "-9223372036854775808" = Ok (-9223372036854775808) /\
  Atoi "9223372036854775808" = Err (ErrNum "Atoi" "9223372036854775808" ErrRange) /\
  Atoi "99999999999999999999x" = Err (ErrNum "Atoi" "99999999999999999999x" ErrRange) /\
  Atoi "9999999999999999999x" = Err (ErrNum "Atoi" "9999999999999999999x" ErrSyntax).
Proof. repeat split; vm_compute; reflexivity. Qed.

Example Contains_banner : Contains "SSH-2.0-OpenSSH_8.1" "SSH" = true /\ Contains "HTTP/1.1 200" "SSH" = false.
Proof. split; reflexivity. Qed.
End GoLibFacts.

(** ** More on strings *)

Module GoLibMore.
Import GoLib.

Lemma prefix_app sub post : String.prefix sub (sub +:+ post) = true.
Proof.
  induction sub as [|c sub IH]; simpl; [by destruct post|].
  destruct (ascii_dec c c); [exact IH|congruence].
Qed.

Lemma prefix_split sub s : String.prefix sub s = true -> exists post, s = sub +:+ post.
Proof.
  revert s. induction sub as [|c sub IH]; intros s H.
  - exists s. reflexivity.
  - destruct s as [|c' s]; simpl in H; [discriminate|].
    destruct (ascii_dec c c') as [->|]; [|discriminate].
    destruct (IH s H) as [post ->]. exists post. reflexivity.
Qed.

Lemma Contains_unfold s sub :
  Contains s sub =
    String.prefix sub s ||
    match s with
    | EmptyString => false
    | String _ s' => Contains s' sub
    end.
Proof. destruct s; reflexivity. Qed.

(** [strings.Contains] holds exactly of the strings that have the
    substring somewhere inside. *)
Lemma Contains_spec s sub :
  Contains s sub = true <-> exists pre post, s = pre +:+ sub +:+ post.
Proof.
  split.
  - induction s as [|c s IH]; rewrite Contains_unfold; intros H;
      apply orb_true_iff in H as [H|H].
    + apply prefix_split in H as [post ->]. exists "", post. reflexivity.
    + discriminate.
    + apply prefix_split in H as [post ->]. exists "", post. reflexivity.
    + destruct (IH H) as (pre & post & ->). exists (String c pre), post. reflexivity.
  - intros (pre & post & ->). induction pre as [|c pre IH].
    + change ("" +:+ sub +:+ post) with (sub +:+ post).
      rewrite Contains_unfold. by rewrite prefix_app.
    + change (String c pre +:+ sub +:+ post) with (String c (pre +:+ sub +:+ post)).
      rewrite Contains_unfold. rewrite IH. apply orb_true_r.
Qed.

Lemma length_append s1 s2 :
  String.length (s1 +:+ s2) = (String.length s1 + String.length s2)%nat.
Proof. induction s1 as [|c s1 IH]; simpl; [reflexivity|by rewrite IH]. Qed.

Lemma Contains_short s sub :
  (String.length s < String.length sub)%nat -> Contains s sub = false.
Proof.
  intros Hlen. destruct (Contains s sub) eqn:H; [|reflexivity].
  apply Contains_spec in H as (pre & post & ->).
  rewrite !length_append in Hlen. lia.
Qed.
End GoLibMore.

(** ** The bridge *)

Module ConnectorFacts.
Import Connector ConnectorSamples.

Lemma checkKubectl_trace w c br :
  trace (checkKubectl w c br) = [EvExec c "kubectl" ["version"; "--client"; "-o"; "json"]] /\
  state (checkKubectl w c br) = br.
Proof.
  unfold checkKubectl. run.
  destruct (kubectlOutput w) as [out|e]; cbn; [|done].
  destruct (jsonUnmarshal w out) as [info|e]; cbn; [|done].
  destruct (GoLib.Atoi (Major info)) as [major|e]; cbn; [|done].
  destruct (GoLib.Atoi (Minor info)) as [minor|e]; cbn; [|done].
  destruct (negb (major =? 1) || (minor <? 10)); done.
Qed.

Lemma checkKubectl_ok w c br :
  value (checkKubectl w c br) = None <-> versionOk w.
Proof.
  unfold checkKubectl, versionOk. run. split.
  - destruct (kubectlOutput w) as [out|e]; cbn; [|done].
    destruct (jsonUnmarshal w out) as [info|e] eqn:Hj; cbn; [|done].
    destruct (GoLib.Atoi (Major info)) as [major|e] eqn:Hmaj; cbn; [|done].
    destruct (GoLib.Atoi (Minor info)) as [minor|e] eqn:Hmin; cbn; [|done].
    destruct (negb (major =? 1) || (minor <? 10)) eqn:Hv; cbn; [done|].
    intros _. exists out, info, major, minor.
    apply orb_false_elim in Hv as [H1 H2].
    apply negb_false_iff, Z.eqb_eq in H1. apply Z.ltb_ge in H2. done.
  - intros (out & info & major & minor & -> & Hj & Hmaj & Hmin & -> & Hge).
    cbn. rewrite Hj. cbn. rewrite Hmaj, Hmin. cbn.
    apply Z.ltb_ge in Hge. rewrite Hge. done.
Qed.

(** C4: a failure of the SetDnsSearchPath RPC or of the ssh process is
    returned as nil when the worker's context is cancelled at that point,
    and is reported (wrapped by the DNS worker, as it is by the ssh worker)
    when the context is not cancelled. *)
Theorem workers_suppress_cancellation (w : world) (c : context) (br : bridge) (e : error) :
  (setDnsSearchPath w = Some e ->
     (is_Some (ctxErr w) -> value (bridgeWorker w c br) = None) /\
     (ctxErr w = None ->
        value (bridgeWorker w c br) =
          Some (ErrFmt "error setting up search path: %v" [ArgErr e]))) /\
  (sshRun w = Some e ->
     (is_Some (ctxErr w) -> value (sshWorker w c br) = None) /\
     (ctxErr w = None -> value (sshWorker w c br) = Some e)).
Proof.
  unfold bridgeWorker, sshWorker. run.
  split; intros ->; cbn; (split; [intros [x ->] | intros ->]); reflexivity.
Qed.

Lemma workers_suppress_cancellation_witness :
  value (bridgeWorker tornDown CtxCommand br0) = None.
Proof.
  destruct (workers_suppress_cancellation tornDown CtxCommand br0
              (ErrExternal "rpc error: code = Canceled")) as [Hdns _].
  destruct (Hdns eq_refl) as [Hcancelled _].
  apply Hcancelled. eexists. reflexivity.
Defined.

(** C5: for every namespace the DNS worker makes exactly one
    SetDnsSearchPath call, with the four search paths in this order:
    namespace.svc.cluster.local., svc.cluster.local., cluster.local. and
    the empty string. *)
Theorem bridgeWorker_search_path (w : world) (c : context) (br : bridge) :
  dnsCalls (trace (bridgeWorker w c br)) =
    [[namespace br +:+ ".svc.cluster.local."; "svc.cluster.local."; "cluster.local."; ""]].
Proof.
  unfold bridgeWorker. run.
  destruct (setDnsSearchPath w); [destruct (ctxErr w)|]; reflexivity.
Qed.

(** C6: start runs the kubectl version check first; it returns nil, having
    then handed the ssh worker and the DNS worker to the group of the
    context it derived with WithCancel, exactly when kubectl ran, its JSON
    output parsed, and the client version has major 1 and minor at least
    10; in every other case it returns an error, spawns nothing and leaves
    the bridge as it was. *)
Theorem start_preflight (w : world) (c : context) (br : bridge) :
  let r := start w c br in
  (value r = None <-> versionOk w) /\
  trace r =
    EvExec c "kubectl" ["version"; "--client"; "-o"; "json"] ::
    match value r with
    | None => [EvGo (CtxWithCancel c) K8sSSHWorker sshWorkerFn;
               EvGo (CtxWithCancel c) K8sBridgeWorker bridgeWorkerFn]
    | Some _ => []
    end /\
  (value r <> None -> spawned (trace r) = [] /\ state r = br) /\
  (value r = None ->
     spawned (trace r) = [K8sSSHWorker; K8sBridgeWorker] /\
     state r = {| sshPort := sshPort br; namespace := namespace br;
                  cancel := Some (CtxWithCancel c) |}) /\
  (forall e, kubectlOutput w = Err e -> value r = Some (ErrWrap e kubectlErr)) /\
  (forall output e, kubectlOutput w = Ok output -> jsonUnmarshal w output = Err e ->
     value r = Some (ErrWrap e kubectlErr)).
Proof.
  pose proof (checkKubectl_ok w c br) as Hok.
  pose proof (checkKubectl_trace w c br) as [Ht Hs].
  assert (Hv : value (start w c br) = value (checkKubectl w c br)).
  { unfold start, bind. destruct (checkKubectl w c br) as [[[e|] s] t]; reflexivity. }
  cbv zeta. rewrite Hv. split; [exact Hok|]. split; [|split; [|split; [|split]]].
  - unfold start, bind.
    destruct (checkKubectl w c br) as [[[e|] s] t]; cbn in *; subst; reflexivity.
  - unfold start, bind.
    destruct (checkKubectl w c br) as [[[e|] s] t]; cbn in *; subst; done.
  - unfold start, bind.
    destruct (checkKubectl w c br) as [[[e|] s] t]; cbn in *; subst; done.
  - intros e He. unfold checkKubectl. run. rewrite He. reflexivity.
  - intros output e Hout He. unfold checkKubectl. run. rewrite Hout. cbn.
    rewrite He. reflexivity.
Qed.

Example start_healthy :
  start healthy CtxCommand br0 =
    (None,
     {| sshPort := 2222; namespace := "default"; cancel := Some (CtxWithCancel CtxCommand) |},
     [EvExec CtxCommand "kubectl" ["version"; "--client"; "-o"; "json"];
      EvGo (CtxWithCancel CtxCommand) "SSH" sshWorkerFn;
      EvGo (CtxWithCancel CtxCommand) "K8S" bridgeWorkerFn]).
Proof. reflexivity. Qed.

Lemma check_state w c br : state (check w c br) = br.
Proof.
  unfold check. run. destruct (dialTimeout w) as [cn|e]; cbn; [|done].
  destruct (readLine w) as [msg|e]; cbn; [|done].
  destruct (GoLib.Contains msg "SSH"); done.
Qed.

Lemma check_answer w c br :
  value (check w c br) =
    match dialTimeout w, readLine w with
    | Ok _, Ok msg => GoLib.Contains msg "SSH"
    | _, _ => false
    end.
Proof.
  unfold check. run. destruct (dialTimeout w) as [cn|e]; cbn; [|done].
  destruct (readLine w) as [msg|e]; cbn; [|done].
  destruct (GoLib.Contains msg "SSH"); done.
Qed.

(** C7: check returns a boolean and leaves the bridge untouched, so a
    further call behaves as on the original bridge; it dials tcp
    localhost:sshPort with a 15 second timeout; it returns true exactly when
    the dial succeeds, a line is read, and that line has the substring SSH
    somewhere inside; when it returns false it has logged one error; a
    connection it opened is closed before it returns. *)
Theorem check_probe (w : world) (c : context) (br : bridge) :
  let r := check w c br in
  state r = br /\
  (forall w', check w' c (state r) = check w' c br) /\
  (exists t, trace r =
     EvDialTimeout "tcp" ("localhost:" +:+ GoLib.Itoa (sshPort br)) (15 * Second) :: t) /\
  (value r = true <->
     exists cn pre post,
       dialTimeout w = Ok cn /\ readLine w = Ok (pre +:+ "SSH" +:+ post)) /\
  (value r = false -> length (errorLogs (trace r)) = 1%nat) /\
  (forall cn, dialTimeout w = Ok cn -> last (trace r) = Some (EvClose cn)).
Proof.
  cbv zeta. rewrite !check_state.
  split; [reflexivity|]. split; [reflexivity|].
  split; [|split].
  - unfold check. run. destruct (dialTimeout w) as [cn|e]; cbn; [|eauto].
    destruct (readLine w) as [msg|e]; cbn; [|eauto].
    destruct (GoLib.Contains msg "SSH"); cbn; eauto.
  - rewrite check_answer.
    destruct (dialTimeout w) as [cn|e].
    + destruct (readLine w) as [msg|e].
      * rewrite GoLibMore.Contains_spec. split.
        -- intros (pre & post & ->). eauto.
        -- intros (cn' & pre & post & _ & [= ->]). eauto.
      * split; [done|]. intros (cn' & pre & post & _ & [=]).
    + split; [done|]. intros (cn' & pre & post & [=] & _).
  - unfold check. run.
    destruct (dialTimeout w) as [cn|e]; cbn.
    + destruct (readLine w) as [msg|e]; cbn.
      * destruct (GoLib.Contains msg "SSH") eqn:Hc; cbn;
          (split; [done|]); intros cn' [= ->]; reflexivity.
      * split; [done|]. intros cn' [= ->]. reflexivity.
    + split; [done|]. intros cn' [=].
Qed.

Example check_healthy : value (check healthy CtxCommand br0) = true.
Proof. reflexivity. Qed.

Example check_address :
  hd_error (trace (check healthy CtxCommand br0)) =
    Some (EvDialTimeout "tcp" "localhost:2222" 15000000000).
Proof. reflexivity. Qed.

(** C9: checkKubectl passes only if strconv.Atoi accepts both
    ClientVersion.Major and ClientVersion.Minor, that is, only if both are
    decimal integer strings; a minor of 18+ fails the parse and the check
    returns the wrapped syntax error, whatever the major is. *)
Theorem checkKubectl_needs_decimal (w : world) (c : context) (br : bridge) :
  (value (checkKubectl w c br) = None ->
     exists output info,
       kubectlOutput w = Ok output /\ jsonUnmarshal w output = Ok info /\
       GoLib.decimalString (Major info) = true /\
       GoLib.decimalString (Minor info) = true) /\
  (forall output major,
     kubectlOutput w = Ok output ->
     jsonUnmarshal w output = Ok {| Major := major; Minor := "18+" |} ->
     exists e, value (checkKubectl w c br) = Some (ErrWrap e kubectlErr)) /\
  (forall output,
     kubectlOutput w = Ok output ->
     jsonUnmarshal w output = Ok {| Major := "1"; Minor := "18+" |} ->
     value (checkKubectl w c br) =
       Some (ErrWrap (ErrNum "Atoi" "18+" ErrSyntax) kubectlErr)).
Proof.
  split; [|split].
  - intros H. apply checkKubectl_ok in H.
    destruct H as (out & info & major & minor & Hout & Hj & Hmaj & Hmin & _).
    exists out, info. repeat split; try assumption;
      eapply GoLibFacts.Atoi_decimalString; eassumption.
  - intros out major Hout Hj. unfold checkKubectl. run. rewrite Hout. cbn.
    rewrite Hj. cbn. destruct (GoLib.Atoi major); cbn; eauto.
  - intros out Hout Hj. unfold checkKubectl. run. rewrite Hout. cbn.
    rewrite Hj. reflexivity.
Qed.

Lemma checkKubectl_needs_decimal_witness :
  value (checkKubectl suffixed CtxCommand br0) =
    Some (ErrWrap (ErrNum "Atoi" "18+" ErrSyntax) kubectlErr).
Proof.
  destruct (checkKubectl_needs_decimal suffixed CtxCommand br0) as (_ & _ & H).
  apply (H "{...}"); reflexivity.
Defined.
End ConnectorFacts.

(** ** The daemon state *)

Module CliFacts.
Import Cli CliSamples.

Lemma forEach_emit {A} (l : list A) (f : A -> event) ds :
  forEach l (fun x s => (tt, s, [f x])) ds = (tt, ds, map f l).
Proof.
  induction l as [|x l IH]; [reflexivity|].
  cbn. unfold bind. rewrite IH. reflexivity.
Qed.

Lemma quitLegacyDaemon_run w ds :
  quitLegacyDaemon w ds = (tt, ds, legacyHandshake w).
Proof.
  unfold quitLegacyDaemon, legacyHandshake.
  destruct (SocketExists w legacySocketName); [|reflexivity].
  destruct (legacyDial w) as [cn|e]; [|reflexivity].
  run.
  rewrite (forEach_emit _
             (fun text => EvFprintf ("Legacy daemon: %s" +:+ newline) [ArgStr text])).
  reflexivity.
Qed.

Lemma connect_wellFormed w ds :
  wellFormed ds -> isConnected ds = false -> wellFormed (state (connect w ds)).
Proof.
  unfold wellFormed, isConnected, connect. run.
  destruct (DialSocket w); cbn; [done|].
  destruct (conn ds); [done|]. auto.
Qed.

Lemma reachable_wellFormed ds : reachable ds -> wellFormed ds.
Proof.
  induction 1 as [w ds0 | w ds Hr IH | w ds Hr IH].
  - unfold newDaemonState, assertDaemonStarted, connect, wellFormed. run.
    destruct (SocketExists w (DaemonSocketName w)); cbn; [|done].
    destruct (DialSocket w); cbn; done.
  - unfold EnsureState. unfold bind at 1. unfold get at 1.
    destruct (isConnected ds) eqn:Hc; [exact IH|].
    unfold bind at 1. rewrite quitLegacyDaemon_run.
    unfold bind at 1. unfold emit at 1. unfold bind at 1. unfold emit at 1.
    destruct (runAsRoot w); [exact IH|].
    unfold bind at 1. unfold emit at 1.
    destruct (WaitUntilSocketAppears w); [exact IH|].
    unfold bind at 1.
    pose proof (connect_wellFormed w ds IH Hc) as Hw.
    destruct (connect w ds) as [[err s] t]. exact Hw.
  - unfold DeactivateState, disconnect, wellFormed, isConnected in *.
    destruct ds as [[cn|] g];
      destruct (SocketExists w (DaemonSocketName w));
      destruct (Quit w); destruct (WaitUntilSocketVanishes w);
      run; auto.
Qed.

Lemma DeactivateState_disconnected w ds :
  conn ds = None -> DeactivateState w ds = (None, ds, []).
Proof.
  unfold DeactivateState, isConnected. destruct ds as [[cn|] g]; [discriminate|].
  reflexivity.
Qed.

Lemma DeactivateState_state w ds cn :
  conn ds = Some cn -> state (DeactivateState w ds) = {| conn := None; grpc := None |}.
Proof.
  unfold DeactivateState, disconnect, isConnected.
  destruct ds as [[cn'|] g]; [intros _|discriminate].
  destruct (SocketExists w (DaemonSocketName w));
    destruct (Quit w); destruct (WaitUntilSocketVanishes w); reflexivity.
Qed.

(** C3, as the code has it: DeactivateState returns nil at once when there
    is no connection.  With a connection it announces the shutdown, sends
    the Quit RPC under context.Background() if and only if the daemon
    socket exists, closes and forgets the connection whatever the RPC
    returned, and waits up to 5 seconds for the socket to vanish only if
    the RPC did not fail (or was not sent); a failed RPC is returned
    without waiting. *)
Theorem DeactivateState_spec (w : world) (ds : daemonState) :
  let r := DeactivateState w ds in
  (conn ds = None -> r = (None, ds, [])) /\
  (forall cn, conn ds = Some cn ->
     let present := SocketExists w (DaemonSocketName w) in
     let rpc := if present then Quit w else None in
     state r = {| conn := None; grpc := None |} /\
     value r = match rpc with
               | None => WaitUntilSocketVanishes w
               | Some e => Some e
               end /\
     trace r =
       [EvFprint [ArgStr "Telepresence Daemon quitting..."];
        EvSocketExists (DaemonSocketName w)] ++
       (if present then [EvQuit CtxBackground] else []) ++
       [EvConnClose cn] ++
       match rpc with
       | None => [EvWaitUntilSocketVanishes "daemon" (DaemonSocketName w) (5 * Second)]
       | Some _ => []
       end ++
       [EvFprintln match value r with None => [ArgStr "done"] | Some _ => [] end]).
Proof.
  unfold DeactivateState, disconnect, isConnected.
  destruct ds as [[cn|] g]; cbn [conn]; (split; [intros [=] | intros cn' [=]]); subst.
  - destruct (SocketExists w (DaemonSocketName w));
      destruct (Quit w); destruct (WaitUntilSocketVanishes w);
      run; repeat split.
  - reflexivity.
Qed.

(** C3 as stated fails: a connected state whose socket is gone sends no
    Quit RPC, and a failed Quit RPC is not followed by any polling. *)
Lemma DeactivateState_skips_quit_and_poll :
  isConnected connected = true /\
  quitCalls (trace (DeactivateState socketGone connected)) = [] /\
  quitCalls (trace (DeactivateState quitFails connected)) = [CtxBackground] /\
  vanishPolls (trace (DeactivateState quitFails connected)) = [] /\
  value (DeactivateState quitFails connected) =
    Some (ErrExternal "rpc error: code = Unavailable").
Proof. repeat split. Qed.

Lemma DeactivateState_spec_witness :
  trace (DeactivateState plain connected) =
    [EvFprint [ArgStr "Telepresence Daemon quitting..."];
     EvSocketExists "/var/run/telepresence-daemon.socket";
     EvQuit CtxBackground;
     EvConnClose 1%nat;
     EvWaitUntilSocketVanishes "daemon" "/var/run/telepresence-daemon.socket" 5000000000;
     EvFprintln [ArgStr "done"]].
Proof.
  destruct (DeactivateState_spec plain connected) as [_ H].
  destruct (H 1%nat eq_refl) as (_ & _ & Ht). exact Ht.
Defined.

(** EnsureState, one bind at a time. *)
Lemma EnsureState_run w ds :
  EnsureState w ds =
    if isConnected ds then ((false, None), ds, [])
    else
      let '(a, s, t) :=
      (emit (EvFprintln [ArgStr "Launching Telepresence Daemon"; ArgStr (DisplayVersion w)]) >>
       emit (EvRunAsRoot (GetExe w) ["daemon-foreground"; dnsIP w; fallbackIP w]) >>
       match runAsRoot w with
       | Some err => ret (false, Some (ErrWrap err "failed to launch the server"))
       | None =>
           emit (EvWaitUntilSocketAppears "daemon" (DaemonSocketName w) (10 * Second)) >>
           match WaitUntilSocketAppears w with
           | Some _ =>
               ret (false,
                    Some (ErrFmt "daemon service did not start (see %s for more info)"
                            [ArgStr (Logfile w)]))
           | None =>
               let* err := connect w in
               ret (match err with None => true | Some _ => false end, err)
           end
       end) ds in
      (a, s, legacyHandshake w ++ t).
Proof.
  unfold EnsureState. unfold bind at 1. unfold get at 1. cbv beta iota.
  destruct (isConnected ds); [reflexivity|].
  unfold bind at 1. rewrite quitLegacyDaemon_run.
  match goal with
  | |- context [bind ?m ?k ds] => destruct (bind m k ds) as [[a s] t]
  end.
  reflexivity.
Qed.


Example EnsureState_plain :
  EnsureState plain fresh =
    ((true, None),
     connected,
     [EvSocketExists "/var/run/edgectl.socket";
      EvFprintln [ArgStr "Launching Telepresence Daemon"; ArgStr "v2.0.0"];
      EvRunAsRoot "/usr/local/bin/telepresence" ["daemon-foreground"; ""; ""];
      EvWaitUntilSocketAppears "daemon" "/var/run/telepresence-daemon.socket" 10000000000;
      EvDialSocket CtxCommand "/var/run/telepresence-daemon.socket"]).
Proof. reflexivity. Qed.

(** C10: from any state the package can produce, DeactivateState leaves
    both the connection and the RPC client nil, whether it returned an
    error or not, so isConnected is false; a second DeactivateState then
    returns nil without any call: no RPC, no polling, no output. *)
Theorem DeactivateState_idempotent (w w' : world) (ds : daemonState) :
  reachable ds ->
  let r := DeactivateState w ds in
  conn (state r) = None /\
  grpc (state r) = None /\
  isConnected (state r) = false /\
  DeactivateState w' (state r) = (None, state r, []).
Proof.
  intros Hr. apply reachable_wellFormed in Hr. cbv zeta.
  destruct (conn ds) as [cn|] eqn:Hc.
  - rewrite (DeactivateState_state w ds cn Hc). repeat split.
  - rewrite (DeactivateState_disconnected w ds Hc).
    change (state (None, ds, [])) with ds.
    rewrite (DeactivateState_disconnected w' ds Hc).
    unfold isConnected. rewrite Hc. auto.
Qed.

Lemma DeactivateState_idempotent_witness :
  let r := DeactivateState quitFails (state (EnsureState plain (state (newDaemonState socketGone fresh)))) in
  conn (state r) = None /\
  grpc (state r) = None /\
  isConnected (state r) = false /\
  DeactivateState plain (state r) = (None, state r, []).
Proof.
  apply (DeactivateState_idempotent quitFails plain).
  apply reach_ensure, reach_new.
Defined.
End CliFacts.

(** ** The injection engine *)

Module InjectionFacts.
Import Injection InjectionSamples.


Section WithConventions.
Variable cv : conventions.


Lemma isAgent_agentContainer img p : isAgent cv (agentContainer cv img p) = true.
Proof. unfold isAgent. cbn. apply String.eqb_refl. Qed.


Lemma isAgent_sanitize c : isAgent cv (sanitizeContainer c) = isAgent cv c.
Proof. reflexivity. Qed.




(** What a successful call returns. *)
Lemma addAgentToWorkload_inv portName img w svc w' r :
  addAgentToWorkload cv portName img w svc = Done (w', r) ->
  (hasAgent cv w = true /\ w' = w /\ r = svc) \/
  (hasAgent cv w = false /\
   exists original appPort,
     w' = {| wKind := wKind w;
             wMeta := setAnnotation (annotation cv) (encodePort cv original) (wMeta w);
             wContainers := wContainers w ++ [agentContainer cv img appPort] |} /\
     r = match svc with
         | Some s =>
             if decide (sTargetPort s = IntPort (agentPort cv)) then None
             else Some {| sMeta := setAnnotation (annotation cv)
                                     (encodePort cv (sTargetPort s)) (sMeta s);
                          sTargetPort := IntPort (agentPort cv) |}
         | None => None
         end).
Proof.
  unfold addAgentToWorkload.
  destruct (hasAgent cv w) eqn:Hag; [intros [= <- <-]; left; done|].
  destruct (portKey portName svc) as [key|]; [|done].
  destruct (List.filter (exposes key) (wContainers w)) as [|c [|c' cs]]; [done| |done].
  destruct (find (matchesPort key) (cPorts c)) as [p|]; [|done].
  intros [= <- <-]. right. split; [done|]. eauto.
Qed.
End WithConventions.

(** C2: when addAgentToWorkload succeeds, its result carries the sidecar,
    and applying it again to that result (with the service the caller goes
    on with) returns exactly the same workload and service: the sidecar is
    found by its name and nothing is changed. *)
Theorem addAgentToWorkload_idempotent (cv : conventions) (portName img : string)
    (w : workload) (svc : option service) (w' : workload) (r : option service) :
  addAgentToWorkload cv portName img w svc = Done (w', r) ->
  hasAgent cv w' = true /\
  addAgentToWorkload cv portName img w' (effective r svc) = Done (w', effective r svc).
Proof.
  intros H.
  assert (Hag : hasAgent cv w' = true).
  { apply addAgentToWorkload_inv in H as [(Hag & -> & _) | (_ & o & p & -> & _)]; [done|].
    unfold hasAgent. cbn [wContainers]. rewrite existsb_app. cbn [existsb].
    rewrite isAgent_agentContainer. by rewrite orb_true_r. }
  split; [exact Hag|]. unfold addAgentToWorkload. by rewrite Hag.
Qed.

Lemma addAgentToWorkload_idempotent_witness :
  addAgentToWorkload telepresence "http" "agent:1.0" injected None = Done (injected, None).
Proof.
  apply (addAgentToWorkload_idempotent telepresence "http" "agent:1.0" dep None injected None).
  vm_compute. reflexivity.
Defined.

(** The scenario of the specification. *)
Example addAgentToWorkload_scenario :
  addAgentToWorkload telepresence "http" "agent:1.0" dep None = Done (injected, None) /\
  map cName (wContainers injected) = ["app"; "traffic-agent"] /\
  undoObjectMods telepresence injected = Done dep.
Proof. repeat split; vm_compute; reflexivity. Qed.



(** Undo goes back to the state before the first injection: a workload
    that already carries the sidecar is returned unchanged by
    addAgentToWorkload, and undoObjectMods on it gives the workload the
    sidecar was first added to, which differs from the one with the sidecar
    also after sanitizing. *)
Example undo_after_repeated_injection :
  addAgentToWorkload telepresence "http" "agent:1.0" injected None = Done (injected, None) /\
  undoObjectMods telepresence injected = Done dep /\
  sanitizeWorkload dep <> sanitizeWorkload injected.
Proof.
  split; [vm_compute; reflexivity|]. split; [vm_compute; reflexivity|].
  intros H. apply (f_equal (fun w => length (wContainers w))) in H. discriminate H.
Qed.
End InjectionFacts.


(** ** More on the bridge *)

Module ConnectorMore.
Import Connector ConnectorSamples ConnectorSamples2.

Lemma check_value w c br :
  value (check w c br) =
    match dialTimeout w, readLine w with
    | Ok _, Ok msg => GoLib.Contains msg "SSH"
    | _, _ => false
    end.
Proof.
  unfold check. run. destruct (dialTimeout w) as [cn|e]; cbn; [|done].
  destruct (readLine w) as [msg|e]; cbn; [|done].
  destruct (GoLib.Contains msg "SSH"); done.
Qed.

(** X1: check reports a healthy tunnel exactly when the dial succeeds and the
    line read has SSH somewhere inside, at any position and in this exact
    case; a line shorter than three bytes, the empty line included, is never
    accepted. *)
Theorem check_banner (w : world) (c : context) (br : bridge) :
  (value (check w c br) = true <->
     exists cn pre post,
       dialTimeout w = Ok cn /\ readLine w = Ok (pre +:+ "SSH" +:+ post)) /\
  (forall msg, readLine w = Ok msg -> (String.length msg < 3)%nat ->
     value (check w c br) = false).
Proof.
  rewrite check_value. split.
  - destruct (dialTimeout w) as [cn|e].
    + destruct (readLine w) as [msg|e].
      * rewrite GoLibMore.Contains_spec. split.
        -- intros (pre & post & ->). eauto.
        -- intros (cn' & pre & post & _ & [= ->]). eauto.
      * split; [done|]. intros (cn' & pre & post & _ & [=]).
    + split; [done|]. intros (cn' & pre & post & [=] & _).
  - intros msg -> Hlen. destruct (dialTimeout w); [|done].
    by apply GoLibMore.Contains_short.
Qed.

(** X2: check dials exactly once; it reads from and closes exactly the
    connection it opened: once each when the dial succeeded, never when the
    dial failed. *)
Theorem check_closes_what_it_opens (w : world) (c : context) (br : bridge) :
  let t := trace (check w c br) in
  dials t = [("tcp", "localhost:" +:+ GoLib.Itoa (sshPort br), 15 * Second)] /\
  reads t = match dialTimeout w with Ok cn => [cn] | Err _ => [] end /\
  closes t = reads t.
Proof.
  unfold check. run. destruct (dialTimeout w) as [cn|e]; cbn; [|done].
  destruct (readLine w) as [msg|e]; cbn; [|done].
  destruct (GoLib.Contains msg "SSH"); done.
Qed.

Lemma check_dials w c br :
  dials (trace (check w c br)) =
    [("tcp", "localhost:" +:+ GoLib.Itoa (sshPort br), 15 * Second)].
Proof.
  unfold check. run.
  destruct (dialTimeout w) as [cn|e]; cbn; [|done].
  destruct (readLine w) as [msg|e]; cbn; [|done].
  destruct (GoLib.Contains msg "SSH"); done.
Qed.

Lemma sshWorker_trace w c br :
  trace (sshWorker w c br) =
    [EvExec c "ssh"
       ["-F"; "none"; "-C"; "-oConnectTimeout=5"; "-oStrictHostKeyChecking=no";
        "-oUserKnownHostsFile=/dev/null"; "-N"; "-oExitOnForwardFailure=yes";
        "-D"; "localhost:1080"; "-p"; GoLib.Itoa (sshPort br);
        "telepresence@localhost"]].
Proof.
  unfold sshWorker. run. destruct (sshRun w); [destruct (ctxErr w)|]; reflexivity.
Qed.

(** X3: sshWorker runs exactly one command, ssh, under its own context, and
    leaves the bridge as it was.  The port it passes after -p is the decimal
    rendering of sshPort, which is the very port check dials on localhost;
    the SOCKS listener it asks for after -D is localhost:1080. *)
Theorem sshWorker_command (w w' : world) (c c' : context) (br : bridge) :
  state (sshWorker w c br) = br /\
  exists args port,
    trace (sshWorker w c br) = [EvExec c "ssh" args] /\
    argAfter "-p" args = Some port /\
    port = GoLib.Itoa (sshPort br) /\
    argAfter "-D" args = Some "localhost:1080" /\
    dials (trace (check w' c' br)) = [("tcp", "localhost:" +:+ port, 15 * Second)].
Proof.
  pose proof (check_dials w' c' br) as Hd.
  unfold sshWorker. run.
  destruct (sshRun w) as [e|]; [destruct (ctxErr w)|]; cbn;
    (split; [reflexivity|]); do 2 eexists; (split; [reflexivity|]);
    (split; [reflexivity|]); (split; [reflexivity|]); (split; [reflexivity|exact Hd]).
Qed.

(** X4: a worker whose external call succeeded returns nil whatever the
    state of its context, and neither worker modifies the bridge. *)
Theorem workers_succeed (w : world) (c : context) (br : bridge) :
  (setDnsSearchPath w = None -> value (bridgeWorker w c br) = None) /\
  (sshRun w = None -> value (sshWorker w c br) = None) /\
  state (bridgeWorker w c br) = br /\
  state (sshWorker w c br) = br.
Proof.
  unfold bridgeWorker, sshWorker. run.
  repeat split; try (intros ->; reflexivity);
    destruct (setDnsSearchPath w), (sshRun w), (ctxErr w); reflexivity.
Qed.

Lemma workers_succeed_witness :
  value (bridgeWorker lateCancel CtxCommand br0) = None /\
  value (sshWorker lateCancel CtxCommand br0) = None.
Proof.
  destruct (workers_succeed lateCancel CtxCommand br0) as (Hdns & Hssh & _).
  split; [apply Hdns | apply Hssh]; reflexivity.
Defined.

Lemma start_run w c br :
  start w c br =
    match value (checkKubectl w c br) with
    | Some e => (Some e, br, [EvExec c "kubectl" ["version"; "--client"; "-o"; "json"]])
    | None =>
        (None,
         {| sshPort := sshPort br; namespace := namespace br;
            cancel := Some (CtxWithCancel c) |},
         [EvExec c "kubectl" ["version"; "--client"; "-o"; "json"];
          EvGo (CtxWithCancel c) K8sSSHWorker sshWorkerFn;
          EvGo (CtxWithCancel c) K8sBridgeWorker bridgeWorkerFn])
    end.
Proof.
  pose proof (ConnectorFacts.checkKubectl_trace w c br) as [Ht Hs].
  unfold start, bind.
  destruct (checkKubectl w c br) as [[[e|] s] t]; cbn in *; subst; reflexivity.
Qed.

(** X5: start has no guard against a bridge that is already started: a
    second start whose preflight passes spawns two more workers and replaces
    br.cancel by the cancel function of the newly derived context, keeping
    the port and the namespace. *)
Theorem start_twice (w w' : world) (c c' : context) (br : bridge) :
  versionOk w -> versionOk w' ->
  let br1 := state (start w c br) in
  let r2 := start w' c' br1 in
  cancel br1 = Some (CtxWithCancel c) /\
  value r2 = None /\
  spawned (trace r2) = [K8sSSHWorker; K8sBridgeWorker] /\
  state r2 = {| sshPort := sshPort br; namespace := namespace br;
                cancel := Some (CtxWithCancel c') |}.
Proof.
  intros Hok Hok'. cbv zeta.
  assert (H1 : state (start w c br) =
                 {| sshPort := sshPort br; namespace := namespace br;
                    cancel := Some (CtxWithCancel c) |}).
  { rewrite start_run. apply (ConnectorFacts.checkKubectl_ok w c br) in Hok.
    rewrite Hok. reflexivity. }
  rewrite H1, start_run.
  rewrite (proj2 (ConnectorFacts.checkKubectl_ok w' c' _) Hok').
  repeat split.
Qed.

Lemma start_twice_witness :
  spawned (trace (start healthy CtxBackground (state (start healthy CtxCommand br0))))
    = [K8sSSHWorker; K8sBridgeWorker].
Proof.
  assert (Hok : versionOk healthy).
  { exists "{...}", {| Major := "1"; Minor := "18" |}, 1, 18.
    repeat split; try reflexivity. lia. }
  exact (proj1 (proj2 (proj2
    (start_twice healthy healthy CtxCommand CtxBackground br0 Hok Hok)))).
Defined.

(** X6: when kubectl ran and both version fields parsed, every client
    version whose major is not 1, versions 2.x and later included, and every
    1.x with x below 10, is rejected with the error that reports the parsed
    numbers. *)
Theorem checkKubectl_mismatch (w : world) (c : context) (br : bridge)
    (output : string) (info : clientVersion) (major minor : Z) :
  kubectlOutput w = Ok output ->
  jsonUnmarshal w output = Ok info ->
  GoLib.Atoi (Major info) = Ok major ->
  GoLib.Atoi (Minor info) = Ok minor ->
  major <> 1 \/ minor < 10 ->
  value (checkKubectl w c br) =
    Some (ErrFmt "%s (found %d.%d)" [ArgStr kubectlErr; ArgInt major; ArgInt minor]).
Proof.
  intros Hout Hj Hmaj Hmin Hbad. unfold checkKubectl. run.
  rewrite Hout. cbn. rewrite Hj. cbn. rewrite Hmaj, Hmin. cbn.
  assert (Hv : negb (major =? 1) || (minor <? 10) = true).
  { apply orb_true_iff. destruct Hbad as [H|H].
    - left. apply negb_true_iff, Z.eqb_neq, H.
    - right. apply Z.ltb_lt, H. }
  rewrite Hv. reflexivity.
Qed.

Lemma checkKubectl_mismatch_witness :
  value (checkKubectl kubectl2 CtxCommand br0) =
    Some (ErrFmt "%s (found %d.%d)" [ArgStr kubectlErr; ArgInt 2; ArgInt 0]).
Proof.
  apply (checkKubectl_mismatch kubectl2 CtxCommand br0 "{...}"
           {| Major := "2"; Minor := "0" |} 2 0);
    try reflexivity.
  left. discriminate.
Defined.
End ConnectorMore.

(** ** More on the daemon state *)

Module CliMore.
Import Cli CliSamples CliSamples2.

Lemma omap_map_none {A B C} (f : B -> option C) (g : A -> B) (l : list A) :
  (forall x, f (g x) = None) -> omap f (map g l) = [].
Proof.
  intros H. induction l as [|x l IH]; cbn; [reflexivity|]. by rewrite H.
Qed.

(** A projection that ignores the five kinds of call of the legacy
    handshake sees nothing of it. *)
Lemma legacyHandshake_silent {C} (f : event -> option C) w :
  (forall e,
     match e with
     | EvSocketExists _ | EvNetDial _ _ | EvWriteString _ _
     | EvFprintf _ _ | EvNetClose _ => f e = None
     | _ => True
     end) ->
  omap f (legacyHandshake w) = [].
Proof.
  intros H. unfold legacyHandshake. cbn. rewrite (H (EvSocketExists _)).
  destruct (SocketExists w legacySocketName); cbn; [|reflexivity].
  rewrite (H (EvNetDial _ _)).
  destruct (legacyDial w) as [cn|e]; cbn; [|reflexivity].
  rewrite (H (EvWriteString _ _)), omap_app, omap_map_none.
  - cbn. by rewrite (H (EvNetClose _)).
  - intros x. apply (H (EvFprintf _ _)).
Qed.

Lemma relayed_map (fmt : string) (l : list string) :
  relayed (map (fun text => EvFprintf fmt [ArgStr text]) l) = l.
Proof. induction l as [|x l IH]; cbn; [reflexivity|]. by f_equal. Qed.

(** The four ways EnsureState can end when there is no connection yet. *)
Lemma EnsureState_cases w ds :
  isConnected ds = false ->
  let announce :=
    [EvFprintln [ArgStr "Launching Telepresence Daemon"; ArgStr (DisplayVersion w)];
     EvRunAsRoot (GetExe w) ["daemon-foreground"; dnsIP w; fallbackIP w]] in
  let wait := EvWaitUntilSocketAppears "daemon" (DaemonSocketName w) (10 * Second) in
  EnsureState w ds =
    match runAsRoot w with
    | Some e =>
        ((false, Some (ErrWrap e "failed to launch the server")), ds,
         legacyHandshake w ++ announce)
    | None =>
        match WaitUntilSocketAppears w with
        | Some _ =>
            ((false,
              Some (ErrFmt "daemon service did not start (see %s for more info)"
                      [ArgStr (Logfile w)])),
             ds, legacyHandshake w ++ announce ++ [wait])
        | None =>
            match DialSocket w with
            | Ok cn =>
                ((true, None),
                 {| conn := Some cn; grpc := Some (NewDaemonClient cn) |},
                 legacyHandshake w ++ announce ++
                 [wait; EvDialSocket CtxCommand (DaemonSocketName w)])
            | Err e =>
                ((false, Some e),
                 {| conn := None; grpc := grpc ds |},
                 legacyHandshake w ++ announce ++
                 [wait; EvDialSocket CtxCommand (DaemonSocketName w)])
            end
        end
    end.
Proof.
  intros Hc. cbv zeta. rewrite CliFacts.EnsureState_run, Hc. unfold connect.
  destruct (runAsRoot w) as [e|]; [reflexivity|].
  destruct (WaitUntilSocketAppears w) as [e|]; [reflexivity|].
  destruct (DialSocket w) as [cn|e]; reflexivity.
Qed.

Lemma EnsureState_connected w ds :
  isConnected ds = true -> EnsureState w ds = ((false, None), ds, []).
Proof. intros Hc. by rewrite CliFacts.EnsureState_run, Hc. Qed.

(** X7: in every state the package can produce, the RPC client is present
    exactly when the connection is, and it is the client built on that very
    connection. *)
Theorem reachable_consistent (ds : daemonState) :
  reachable ds -> consistent ds.
Proof.
  induction 1 as [w ds0 | w ds Hr IH | w ds Hr IH].
  - unfold newDaemonState, assertDaemonStarted, connect, consistent. run.
    destruct (SocketExists w (DaemonSocketName w)); cbn; [|done].
    destruct (DialSocket w); cbn; done.
  - destruct (isConnected ds) eqn:Hc.
    + by rewrite EnsureState_connected.
    + rewrite EnsureState_cases by done.
      destruct (runAsRoot w); [exact IH|].
      destruct (WaitUntilSocketAppears w); [exact IH|].
      destruct (DialSocket w); [reflexivity|].
      unfold consistent, isConnected, state in *. cbn.
      destruct (conn ds); [discriminate|]. exact IH.
  - destruct (conn ds) as [cn|] eqn:Hc.
    + by rewrite (CliFacts.DeactivateState_state w ds cn Hc).
    + by rewrite (CliFacts.DeactivateState_disconnected w ds Hc).
Qed.

Lemma reachable_consistent_witness :
  consistent (state (EnsureState withLegacy (state (newDaemonState socketGone fresh)))).
Proof.
  apply reachable_consistent. apply reach_ensure, reach_new.
Defined.

Lemma EnsureState_nil_connected w ds :
  snd (value (EnsureState w ds)) = None -> isConnected (state (EnsureState w ds)) = true.
Proof.
  destruct (isConnected ds) eqn:Hc.
  - by rewrite EnsureState_connected.
  - rewrite EnsureState_cases by done.
    destruct (runAsRoot w); [done|].
    destruct (WaitUntilSocketAppears w); [done|].
    by destruct (DialSocket w).
Qed.


(** X9: once EnsureState has returned a nil error, a further EnsureState
    does nothing at all: no legacy handshake, no launch, no dial, and the
    answer (false, nil). *)
Theorem EnsureState_twice (w w' : world) (ds : daemonState) :
  snd (value (EnsureState w ds)) = None ->
  EnsureState w' (state (EnsureState w ds)) =
    ((false, None), state (EnsureState w ds), []).
Proof.
  intros H. apply EnsureState_connected. by apply EnsureState_nil_connected.
Qed.

Lemma EnsureState_twice_witness :
  EnsureState withLegacy (state (EnsureState plain fresh)) =
    ((false, None), state (EnsureState plain fresh), []).
Proof.
  apply (EnsureState_twice plain withLegacy fresh). reflexivity.
Defined.

(** X10: when EnsureState has started the daemon, it has dialled the daemon
    socket exactly once, and a following DeactivateState closes exactly the
    connection that dial returned and leaves the state disconnected,
    whatever the Quit RPC and the polling return. *)
Theorem EnsureState_then_DeactivateState (w w' : world) (ds : daemonState) :
  value (EnsureState w ds) = (true, None) ->
  exists cn,
    DialSocket w = Ok cn /\
    dialed (trace (EnsureState w ds)) = [(CtxCommand, DaemonSocketName w)] /\
    closedConns (trace (DeactivateState w' (state (EnsureState w ds)))) = [cn] /\
    state (DeactivateState w' (state (EnsureState w ds))) = {| conn := None; grpc := None |}.
Proof.
  destruct (isConnected ds) eqn:Hc.
  { rewrite EnsureState_connected by done. discriminate. }
  rewrite EnsureState_cases by done.
  destruct (runAsRoot w); [discriminate|].
  destruct (WaitUntilSocketAppears w); [discriminate|].
  destruct (DialSocket w) as [cn|e]; [|discriminate].
  intros _. exists cn. split; [reflexivity|]. split.
  - unfold trace, dialed. cbn [snd]. rewrite omap_app, legacyHandshake_silent.
    + reflexivity.
    + by intros [].
  - unfold state at 1 3. cbn [fst snd].
    unfold DeactivateState, disconnect, isConnected.
    destruct (SocketExists w' (DaemonSocketName w'));
      destruct (Quit w'); destruct (WaitUntilSocketVanishes w'); split; reflexivity.
Qed.

Lemma EnsureState_then_DeactivateState_witness :
  exists cn,
    DialSocket withLegacy = Ok cn /\
    dialed (trace (EnsureState withLegacy fresh)) =
      [(CtxCommand, DaemonSocketName withLegacy)] /\
    closedConns (trace (DeactivateState quitFails (state (EnsureState withLegacy fresh)))) = [cn] /\
    state (DeactivateState quitFails (state (EnsureState withLegacy fresh))) =
      {| conn := None; grpc := None |}.
Proof.
  apply (EnsureState_then_DeactivateState withLegacy quitFails fresh). reflexivity.
Defined.

(** X11: without the daemon socket newDaemonState returns
    errDaemonIsNotRunning and does not dial; with the socket it dials once
    and returns the dial's error; in both cases the new state is connected
    exactly when the error is nil. *)
Theorem newDaemonState_spec (w : world) (ds0 : daemonState) :
  let r := newDaemonState w ds0 in
  (value r = None <-> isConnected (state r) = true) /\
  (SocketExists w (DaemonSocketName w) = false ->
     value r = Some (errDaemonIsNotRunning w) /\ dialed (trace r) = []) /\
  (SocketExists w (DaemonSocketName w) = true ->
     dialed (trace r) = [(CtxCommand, DaemonSocketName w)] /\
     value r = match DialSocket w with Ok _ => None | Err e => Some e end).
Proof.
  unfold newDaemonState, assertDaemonStarted, connect, isConnected. run.
  destruct (SocketExists w (DaemonSocketName w)); cbn.
  - destruct (DialSocket w); cbn; repeat split; done.
  - repeat split; done.
Qed.

(** X12: EnsureState never sends the Quit RPC, never closes a daemon
    connection and never waits for the socket to vanish, and it launches the
    daemon at most once; DeactivateState never launches, never dials, never
    touches the legacy socket, and closes the connection it held, once. *)
Theorem lifecycle_never (w : world) (ds : daemonState) :
  let te := trace (EnsureState w ds) in
  let td := trace (DeactivateState w ds) in
  quitCalls te = [] /\ closedConns te = [] /\ vanishPolls te = [] /\
  (length (launches te) <= 1)%nat /\
  launches td = [] /\ dialed td = [] /\ legacyDials td = [] /\
  closedConns td = match conn ds with Some cn => [cn] | None => [] end.
Proof.
  cbv zeta. split; [|split; [|split; [|split]]].
  1-4: destruct (isConnected ds) eqn:Hc;
    [rewrite EnsureState_connected by done; cbn; try done; lia
    |rewrite EnsureState_cases by done;
     destruct (runAsRoot w); [|destruct (WaitUntilSocketAppears w);
                                [|destruct (DialSocket w)]];
     unfold trace; cbn [snd];
     unfold quitCalls, closedConns, vanishPolls, launches;
     rewrite omap_app, legacyHandshake_silent by (by intros []); cbn; try done; lia].
  unfold DeactivateState, disconnect, isConnected.
  destruct ds as [[cn|] g]; cbn [conn]; [|done].
  destruct (SocketExists w (DaemonSocketName w));
    destruct (Quit w); destruct (WaitUntilSocketVanishes w); done.
Qed.

(** X13: quitLegacyDaemon leaves the daemon state alone.  It dials the legacy
    socket only if the socket exists, writes the quit request only on the
    connection that dial returned, relays every line of the reply in order,
    and closes that connection once; without the socket, or when the dial
    fails, it writes, relays and closes nothing. *)
Theorem quitLegacyDaemon_relays (w : world) (ds : daemonState) :
  let r := quitLegacyDaemon w ds in
  let spoke := if SocketExists w legacySocketName
               then match legacyDial w with Ok cn => Some cn | Err _ => None end
               else None in
  state r = ds /\
  probes (trace r) = [legacySocketName] /\
  legacyDials (trace r) =
    (if SocketExists w legacySocketName then [legacySocketName] else []) /\
  legacyWrites (trace r) =
    match spoke with Some cn => [(cn, legacyQuitRequest)] | None => [] end /\
  relayed (trace r) = match spoke with Some _ => legacyReply w | None => [] end /\
  legacyCloses (trace r) = match spoke with Some cn => [cn] | None => [] end.
Proof.
  cbv zeta. rewrite CliFacts.quitLegacyDaemon_run. unfold state, trace. cbn [fst snd].
  split; [reflexivity|]. unfold legacyHandshake.
  destruct (SocketExists w legacySocketName); [|done].
  destruct (legacyDial w) as [cn|e]; [|done].
  pose proof (relayed_map ("Legacy daemon: %s" +:+ newline) (legacyReply w)) as R.
  unfold probes, legacyDials, legacyWrites, legacyCloses, relayed in *. cbn.
  rewrite !omap_app, R, !omap_map_none by done. cbn. by rewrite app_nil_r.
Qed.

(** X14: disconnect closes the connection it finds, once, and forgets both
    the connection and the client; a second disconnect closes nothing and
    changes nothing. *)
Theorem disconnect_twice (ds : daemonState) :
  let r := disconnect ds in
  state r = {| conn := None; grpc := None |} /\
  closedConns (trace r) = match conn ds with Some cn => [cn] | None => [] end /\
  disconnect (state r) = (tt, state r, []).
Proof.
  unfold disconnect. run. destruct (conn ds); done.
Qed.
End CliMore.

(** ** The sanitizers of the tests *)

Module SanitizeFacts.
Import Injection InjectionSamples.

Lemma sanitizeContainer_eq c1 c2 :
  sanitizeContainer c1 = sanitizeContainer c2 <-> sameContainer c1 c2.
Proof.
  unfold sanitizeContainer, sameContainer. split.
  - intros [= -> -> -> ->]. done.
  - intros (-> & -> & -> & ->). reflexivity.
Qed.

Lemma map_sanitizeContainer_eq l1 l2 :
  map sanitizeContainer l1 = map sanitizeContainer l2 <-> Forall2 sameContainer l1 l2.
Proof.
  revert l2. induction l1 as [|c1 l1 IH]; intros [|c2 l2]; cbn.
  - split; [constructor|done].
  - split; [done|inversion 1].
  - split; [done|inversion 1].
  - split.
    + intros H.
      assert (Hc : sanitizeContainer c1 = sanitizeContainer c2) by congruence.
      assert (Hl : map sanitizeContainer l1 = map sanitizeContainer l2) by congruence.
      constructor; [by apply sanitizeContainer_eq|by apply IH].
    + inversion 1 as [|? ? ? ? Hc Hl]; subst. f_equal; [by apply sanitizeContainer_eq|by apply IH].
Qed.

(** X15: sanitizing twice is sanitizing once, for workloads and for
    services, and sanitizing keeps everything the comparison looks at. *)
Theorem sanitize_idempotent (w : workload) (s : service) :
  sanitizeWorkload (sanitizeWorkload w) = sanitizeWorkload w /\
  sanitizeService (sanitizeService s) = sanitizeService s /\
  sameWorkload (sanitizeWorkload w) w /\
  sameService (sanitizeService s) s.
Proof.
  assert (Hw : sanitizeWorkload (sanitizeWorkload w) = sanitizeWorkload w).
  { unfold sanitizeWorkload. cbn. f_equal. rewrite map_map. reflexivity. }
  split; [exact Hw|]. split; [reflexivity|]. split; [|done].
  unfold sameWorkload. cbn. repeat split.
  apply map_sanitizeContainer_eq. rewrite map_map. reflexivity.
Qed.

(** X16: two workloads are equal after sanitizing exactly when they agree on
    the kind, the name, the annotations and, container by container, on
    name, image, ports and proxy target.  So the comparison of the tests
    ignores the resource version, the generation and the creation timestamp,
    and also each container's termination message path and policy and its
    image pull policy, and nothing else.  The same holds for services, which
    must agree on name, annotations and target port. *)
Theorem sanitize_compares (w1 w2 : workload) (s1 s2 : service) :
  (sanitizeWorkload w1 = sanitizeWorkload w2 <-> sameWorkload w1 w2) /\
  (sanitizeService s1 = sanitizeService s2 <-> sameService s1 s2).
Proof.
  unfold sanitizeWorkload, sanitizeService, sanitizeMeta, sameWorkload, sameService.
  split; split.
  - intros [= Hk Hn Ha Hc]. repeat split; try done. by apply map_sanitizeContainer_eq.
  - intros (-> & -> & -> & Hc). f_equal. by apply map_sanitizeContainer_eq.
  - intros [= Hn Ha Hp]. done.
  - intros (-> & -> & ->). reflexivity.
Qed.
End SanitizeFacts.

(** ** The helpers of the connector's test file *)

Module ConnectorTestFacts.
Import ConnectorTest ConnectorTestSamples.

Lemma includeLoop_spec incls env cmdEnv :
  includeLoop incls env cmdEnv =
    if existsb (fun incl => String.prefix incl env) incls then cmdEnv ++ [env] else cmdEnv.
Proof.
  induction incls as [|incl rest IH]; cbn; [reflexivity|].
  destruct (String.prefix incl env); [reflexivity|exact IH].
Qed.

Lemma environLoop_filter environ cmdEnv :
  environLoop environ cmdEnv = cmdEnv ++ List.filter included environ.
Proof.
  unfold environLoop. revert cmdEnv.
  induction environ as [|env rest IH]; intros cmdEnv; cbn [fold_left List.filter].
  - by rewrite app_nil_r.
  - rewrite IH, includeLoop_spec. fold (included env).
    destruct (included env); [by rewrite <- app_assoc|reflexivity].
Qed.

Lemma prefix_cons a s1 b s2 :
  String.prefix (String a s1) (String b s2) =
    if ascii_dec a b then String.prefix s1 s2 else false.
Proof. reflexivity. Qed.

Lemma included_not_go env : String.prefix "GO" env = true -> included env = false.
Proof.
  intros H. destruct env as [|c env]; [vm_compute in H; discriminate|].
  rewrite prefix_cons in H.
  destruct (ascii_dec "G" c) as [<-|]; [|discriminate].
  unfold included, includeEnv. cbn [existsb]. rewrite !prefix_cons.
  repeat match goal with
         | |- context [ascii_dec ?a ?b] =>
             destruct (ascii_dec a b) as [E|_]; [discriminate E|]
         end.
  reflexivity.
Qed.

(** X17: publishManager does nothing but mark itself a helper when imageName
    is set.  Otherwise it runs make once, with an environment made of the
    two TELEPRESENCE variables followed by exactly those variables of the
    process environment that start with one of the six listed names, each
    once per occurrence and in their original order; a variable whose name
    starts with GO is never passed on. *)
Theorem publishManager_env (w : world) (ctx : context) (g : globals) :
  let r := publishManager w ctx g in
  state r = g /\
  (imageName g <> "" -> trace r = [EvHelper] /\ value r = Continues) /\
  (imageName g = "" ->
     commands (trace r) = [("make", ["-C"; "../../.."; "push-image"])] /\
     environments (trace r) =
       [Some (["TELEPRESENCE_VERSION=" +:+ testVersion g;
               "TELEPRESENCE_REGISTRY=" +:+ DockerRegistry w] ++
              List.filter included (Environ w))] /\
     (value r = TestStopped <-> makeRun w <> None)) /\
  (forall env, String.prefix "GO" env = true -> included env = false).
Proof.
  cbv zeta. unfold publishManager. run.
  split; [|split; [|split]].
  - destruct (String.eqb (imageName g) ""); cbn; [|done].
    destruct (makeRun w); done.
  - intros Hn. apply String.eqb_neq in Hn. by rewrite Hn.
  - intros ->. cbn. rewrite environLoop_filter.
    destruct (makeRun w); cbn; repeat split; done.
  - apply included_not_go.
Qed.

Lemma publishManager_env_witness :
  environments (trace (publishManager cluster CtxCommand vars)) =
    [Some ["TELEPRESENCE_VERSION=v2.0.0-gotest.4242";
           "TELEPRESENCE_REGISTRY=localhost:5000";
           "HOME=/root"; "PATH=/usr/bin"]].
Proof.
  destruct (publishManager_env cluster CtxCommand vars) as (_ & _ & H & _).
  destruct (H eq_refl) as (_ & He & _). exact He.
Defined.

Lemma firstGone_range probe left : forall cnt i,
  firstGone probe cnt left = Some i -> (cnt <= i < cnt + left)%nat.
Proof.
  induction left as [|left IH]; intros cnt i; cbn; [discriminate|].
  destruct (probe cnt); [intros [= <-]; lia|].
  intros H. apply IH in H. lia.
Qed.

Lemma firstGone_spec probe left : forall cnt,
  match firstGone probe cnt left with
  | Some i =>
      (cnt <= i < cnt + left)%nat /\ probe i <> None /\
      forall k, (cnt <= k < i)%nat -> probe k = None
  | None => forall k, (cnt <= k < cnt + left)%nat -> probe k = None
  end.
Proof.
  induction left as [|left IH]; intros cnt; cbn; [intros k; lia|].
  destruct (probe cnt) eqn:Hp.
  - split; [lia|]. split; [congruence|]. intros k; lia.
  - specialize (IH (S cnt)). destruct (firstGone probe (S cnt) left) as [i|].
    + destruct IH as (Hr & Hi & Hk). split; [lia|]. split; [exact Hi|].
      intros k Hk'. destruct (decide (k = cnt)) as [->|]; [exact Hp|apply Hk; lia].
    + intros k Hk. destruct (decide (k = cnt)) as [->|]; [exact Hp|apply IH; lia].
Qed.

Lemma pollGone_run probe cmd left : forall cnt g,
  pollGone probe cmd cnt left g =
    match firstGone probe cnt left with
    | Some i => (true, g, concat (replicate (i - cnt) (round cmd)) ++ [cmd])
    | None => (false, g, concat (replicate left (round cmd)))
    end.
Proof.
  induction left as [|left IH]; intros cnt g; cbn; [reflexivity|].
  unfold bind, emit. cbn. destruct (probe cnt) eqn:Hp.
  - rewrite Nat.sub_diag. reflexivity.
  - cbn. rewrite IH.
    destruct (firstGone probe (S cnt) left) as [i|] eqn:Hf; [|reflexivity].
    apply firstGone_range in Hf.
    replace (i - cnt)%nat with (S (i - S cnt)) by lia. reflexivity.
Qed.

Lemma omap_rounds {C} (f : event -> option C) n l tail :
  omap f (concat (replicate n l) ++ tail) = concat (replicate n (omap f l)) ++ omap f tail.
Proof.
  induction n as [|n IH]; cbn [replicate concat]; [reflexivity|].
  rewrite <- app_assoc, omap_app, IH. by rewrite app_assoc.
Qed.

Lemma concat_replicate_one {A} (x : A) n : concat (replicate n [x]) = replicate n x.
Proof. induction n as [|n IH]; cbn; [reflexivity|]. by rewrite IH. Qed.

Lemma concat_replicate_nil {A} n : concat (replicate n (@nil A)) = [].
Proof. induction n as [|n IH]; cbn; [reflexivity|]. exact IH. Qed.

Lemma commands_rounds ctx g verb n tail :
  commands (concat (replicate n (round (kubectlManager ctx g verb))) ++ tail) =
    replicate n ("kubectl", ["--kubeconfig"; kubeconfig g; "--namespace"; managerNamespace g] ++ verb)
    ++ commands tail.
Proof.
  unfold commands. rewrite omap_rounds. f_equal. apply concat_replicate_one.
Qed.

Lemma sleeps_rounds ctx g verb n tail :
  sleeps (concat (replicate n (round (kubectlManager ctx g verb))) ++ tail) =
    replicate n (500 * Millisecond) ++ sleeps tail.
Proof.
  unfold sleeps. rewrite omap_rounds. f_equal. apply concat_replicate_one.
Qed.

Lemma fatals_rounds ctx g verb n tail :
  fatals (concat (replicate n (round (kubectlManager ctx g verb))) ++ tail) = fatals tail.
Proof.
  unfold fatals. rewrite omap_rounds.
  change (omap _ (round (kubectlManager ctx g verb))) with (@nil (list fmtArg)).
  by rewrite concat_replicate_nil.
Qed.

(** removeManager in terms of the first attempts that see the objects gone. *)
Lemma removeManager_run w ctx g :
  let del := kubectlManager ctx g ["delete"; "svc,deployment"; "traffic-manager"] in
  let getDep := kubectlManager ctx g ["get"; "deployment"; "traffic-manager"] in
  let getSvc := kubectlManager ctx g ["get"; "svc"; "traffic-manager"] in
  removeManager w ctx g =
    match firstGone (getDeployment w) 0 10 with
    | None =>
        (TestStopped, g,
         [del] ++ (concat (replicate 10 (round getDep)) ++
         [EvFatal [ArgStr "timeout waiting for deployment to vanish"]]))
    | Some i =>
        match firstGone (getService w) 0 10 with
        | None =>
            (TestStopped, g,
             [del] ++ (concat (replicate i (round getDep)) ++ [getDep]) ++
             (concat (replicate 10 (round getSvc)) ++
             [EvFatal [ArgStr "timeout waiting for service to vanish"]]))
        | Some j =>
            (Continues, g,
             [del] ++ (concat (replicate i (round getDep)) ++ [getDep]) ++
             (concat (replicate j (round getSvc)) ++ [getSvc]))
        end
    end.
Proof.
  cbv zeta. unfold removeManager. unfold bind at 1. unfold get at 1. cbv beta iota.
  unfold bind at 1. unfold emit at 1. cbv beta iota.
  unfold bind at 1. rewrite pollGone_run.
  destruct (firstGone (getDeployment w) 0 10) as [i|].
  - rewrite Nat.sub_0_r. cbv beta iota. cbn [negb].
    unfold bind at 1. rewrite pollGone_run.
    destruct (firstGone (getService w) 0 10) as [j|].
    + rewrite Nat.sub_0_r. unfold ret. cbn [negb]. by rewrite app_nil_r.
    + cbn [negb]. unfold bind, emit, ret. cbv beta iota. by rewrite app_nil_r.
  - cbv beta iota. cbn [negb]. unfold bind, emit, ret. cbv beta iota. by rewrite app_nil_r.
Qed.
Lemma firstGone_unique probe n i :
  (i < n)%nat -> probe i <> None -> (forall k, (k < i)%nat -> probe k = None) ->
  firstGone probe 0 n = Some i.
Proof.
  intros Hi Hp Hk. pose proof (firstGone_spec probe n 0) as H.
  destruct (firstGone probe 0 n) as [i'|].
  - destruct H as (Hr & Hp' & Hk'). f_equal.
    destruct (Nat.lt_trichotomy i' i) as [Hlt|[->|Hlt]]; [|reflexivity|].
    + exfalso. apply Hp'. apply Hk. exact Hlt.
    + exfalso. apply Hp. apply Hk'. lia.
  - exfalso. apply Hp. apply H. lia.
Qed.

Lemma sum_replicate n (d : Z) : fold_right Z.add 0 (replicate n d) = Z.of_nat n * d.
Proof. induction n as [|n IH]; cbn [replicate fold_right]; [lia|]. rewrite IH. lia. Qed.

Lemma sum_app (l1 l2 : list Z) :
  fold_right Z.add 0 (l1 ++ l2) = fold_right Z.add 0 l1 + fold_right Z.add 0 l2.
Proof. induction l1 as [|x l1 IH]; cbn [app fold_right]; [lia|]. rewrite IH. lia. Qed.

Lemma omap_concat_replicate {C} (f : event -> option C) n l :
  omap f (concat (replicate n l)) = concat (replicate n (omap f l)).
Proof.
  pose proof (omap_rounds f n l []) as H. by rewrite !app_nil_r in H.
Qed.

(** The visible part of removeManager, by the first attempts that see the
    deployment and the service gone. *)
Lemma removeManager_summary w ctx g :
  let r := removeManager w ctx g in
  let dep := firstGone (getDeployment w) 0 10 in
  let svc := firstGone (getService w) 0 10 in
  state r = g /\
  value r = match dep, svc with Some _, Some _ => Continues | _, _ => TestStopped end /\
  length (commands (trace r)) =
    match dep with
    | None => 11%nat
    | Some i => (1 + (i + 1) + match svc with None => 10 | Some j => j + 1 end)%nat
    end /\
  sleeps (trace r) =
    replicate
      match dep with
      | None => 10%nat
      | Some i => (i + match svc with None => 10 | Some j => j end)%nat
      end
      (500 * Millisecond) /\
  fatals (trace r) =
    match dep, svc with
    | None, _ => [[ArgStr "timeout waiting for deployment to vanish"]]
    | Some _, None => [[ArgStr "timeout waiting for service to vanish"]]
    | Some _, Some _ => []
    end.
Proof.
  cbv zeta. rewrite removeManager_run.
  destruct (firstGone (getDeployment w) 0 10) as [i|];
    [destruct (firstGone (getService w) 0 10) as [j|]|];
    unfold state, value, trace; cbn [fst snd];
    (split; [reflexivity|]); (split; [reflexivity|]);
    unfold commands, sleeps, fatals;
    rewrite !omap_app, !omap_concat_replicate; cbn;
    rewrite ?concat_replicate_one, ?concat_replicate_nil;
    rewrite ?length_app, ?length_replicate; cbn;
    rewrite ?app_nil_r, <- ?replicate_add; repeat split; try reflexivity; try lia;
    rewrite replicate_add; reflexivity.
Qed.

(** X18: removeManager always comes to an end after at most 21 kubectl
    commands (one delete, at most ten gets of the deployment, at most ten of
    the service); every pause it makes lasts 500 ms and together they last at
    most 10 seconds; it calls t.Fatal at most once and does not touch the
    package variables. *)
Theorem removeManager_bounded (w : world) (ctx : context) (g : globals) :
  let r := removeManager w ctx g in
  state r = g /\
  (length (commands (trace r)) <= 21)%nat /\
  Forall (fun d => d = 500 * Millisecond) (sleeps (trace r)) /\
  fold_right Z.add 0 (sleeps (trace r)) <= 10 * Second /\
  (length (fatals (trace r)) <= 1)%nat.
Proof.
  cbv zeta. destruct (removeManager_summary w ctx g) as (Hs & _ & Hc & Hsl & Hf).
  rewrite Hs, Hc, Hsl, Hf, sum_replicate.
  split; [reflexivity|].
  destruct (firstGone (getDeployment w) 0 10) as [i|] eqn:Hi;
    [apply firstGone_range in Hi;
     destruct (firstGone (getService w) 0 10) as [j|] eqn:Hj;
     [apply firstGone_range in Hj|]|];
    (split; [lia|]); (split; [by apply Forall_replicate|]);
    unfold Millisecond, Second; cbn [length]; split; lia.
Qed.

(** X19: removeManager returns normally exactly when one of the first ten
    gets of the deployment fails and one of the first ten gets of the service
    fails, and then it has not called t.Fatal.  If all ten gets of the
    deployment succeed it stops the test with the deployment message after
    eleven commands and ten pauses, without ever asking for the service. *)
Theorem removeManager_verdict (w : world) (ctx : context) (g : globals) :
  let r := removeManager w ctx g in
  (value r = Continues <->
     (exists i, (i < 10)%nat /\ getDeployment w i <> None) /\
     (exists j, (j < 10)%nat /\ getService w j <> None)) /\
  (value r = Continues -> fatals (trace r) = []) /\
  ((forall k, (k < 10)%nat -> getDeployment w k = None) ->
     value r = TestStopped /\
     fatals (trace r) = [[ArgStr "timeout waiting for deployment to vanish"]] /\
     length (commands (trace r)) = 11%nat /\
     length (sleeps (trace r)) = 10%nat).
Proof.
  cbv zeta. destruct (removeManager_summary w ctx g) as (_ & Hv & Hc & Hsl & Hf).
  rewrite Hv, Hc, Hsl, Hf, length_replicate.
  pose proof (firstGone_spec (getDeployment w) 10 0) as Hd.
  pose proof (firstGone_spec (getService w) 10 0) as Hsv.
  destruct (firstGone (getDeployment w) 0 10) as [i|];
    [destruct (firstGone (getService w) 0 10) as [j|]|].
  - destruct Hd as (Hri & Hpi & _), Hsv as (Hrj & Hpj & _).
    split; [|split; [done|]].
    + split; [intros _|done]. split; [exists i|exists j]; split; [lia|done|lia|done].
    + intros Hk. exfalso. apply Hpi, Hk. lia.
  - destruct Hd as (Hri & Hpi & _).
    split; [|split; [done|]].
    + split; [done|]. intros (_ & j & Hj & Hpj). exfalso. apply Hpj, Hsv. lia.
    + intros Hk. exfalso. apply Hpi, Hk. lia.
  - split; [|split; [done|done]].
    split; [done|]. intros ((i & Hi & Hpi) & _). exfalso. apply Hpi, Hd. lia.
Qed.

(** X20: when the deployment is first seen gone at its attempt number i and
    the service at its attempt number j (counting from 0), removeManager has
    run exactly i + j + 3 commands and paused exactly i + j times, so it does
    not pause at all when both are gone at once. *)
Theorem removeManager_counts (w : world) (ctx : context) (g : globals) (i j : nat) :
  (i < 10)%nat -> getDeployment w i <> None ->
  (forall k, (k < i)%nat -> getDeployment w k = None) ->
  (j < 10)%nat -> getService w j <> None ->
  (forall k, (k < j)%nat -> getService w k = None) ->
  let r := removeManager w ctx g in
  value r = Continues /\
  length (commands (trace r)) = (i + j + 3)%nat /\
  length (sleeps (trace r)) = (i + j)%nat.
Proof.
  intros Hi Hpi Hki Hj Hpj Hkj. cbv zeta.
  destruct (removeManager_summary w ctx g) as (_ & Hv & Hc & Hsl & _).
  rewrite Hv, Hc, Hsl, length_replicate.
  rewrite (firstGone_unique _ _ i Hi Hpi Hki), (firstGone_unique _ _ j Hj Hpj Hkj).
  repeat split; lia.
Qed.

Lemma removeManager_counts_witness :
  value (removeManager cluster CtxCommand vars) = Continues /\
  length (commands (trace (removeManager cluster CtxCommand vars))) = 5%nat /\
  length (sleeps (trace (removeManager cluster CtxCommand vars))) = 2%nat.
Proof.
  apply (removeManager_counts cluster CtxCommand vars 2 0).
  - lia.
  - discriminate.
  - intros [|[|k]] Hk; [reflexivity|reflexivity|lia].
  - lia.
  - discriminate.
  - intros k Hk. lia.
Defined.
Lemma append_nil_r s : s +:+ "" = s.
Proof.
  induction s as [|c s IH]; [reflexivity|].
  change (String c (s +:+ "") = String c s). by rewrite IH.
Qed.

Lemma append_assoc s1 s2 s3 : (s1 +:+ s2) +:+ s3 = s1 +:+ (s2 +:+ s3).
Proof.
  induction s1 as [|c s1 IH]; [reflexivity|].
  change (String c ((s1 +:+ s2) +:+ s3) = String c (s1 +:+ (s2 +:+ s3))). by rewrite IH.
Qed.

Lemma printEach_run args g :
  printEach args g = (tt, g, map (fun arg => EvPrint [" "; arg]) args).
Proof.
  induction args as [|arg rest IH]; [reflexivity|].
  cbn [printEach map]. unfold bind, emit. by rewrite IH.
Qed.

Lemma printed_print ops t :
  printed (EvPrint ops :: t) = fold_right String.append "" ops +:+ printed t.
Proof. reflexivity. Qed.

Lemma printed_args args rest :
  printed (map (fun arg => EvPrint [" "; arg]) args ++ rest) =
    fold_right (fun arg acc => " " +:+ arg +:+ acc) (printed rest) args.
Proof.
  induction args as [|arg args IH]; [reflexivity|].
  cbn [map app fold_right]. rewrite printed_print, IH.
  cbn [fold_right]. rewrite append_nil_r. by rewrite append_assoc.
Qed.

Lemma concat_spaced exe args tail :
  String.concat " " (exe :: args) +:+ tail =
    exe +:+ fold_right (fun arg acc => " " +:+ arg +:+ acc) tail args.
Proof.
  revert exe. induction args as [|arg args IH]; intros exe; [reflexivity|].
  change (String.concat " " (exe :: arg :: args))
    with (exe +:+ " " +:+ String.concat " " (arg :: args)).
  rewrite !append_assoc, IH. reflexivity.
Qed.

Lemma showArgs_run exe args g :
  showArgs exe args g =
    (tt, g,
     [EvPrint ["+ "]; EvPrint [exe]] ++
     map (fun arg => EvPrint [" "; arg]) args ++ [EvPrintln []]).
Proof.
  unfold showArgs. unfold bind at 1 2. unfold emit at 1 2. cbv beta iota.
  unfold bind at 1. rewrite printEach_run. reflexivity.
Qed.

Lemma printed_showArgs exe args rest :
  printed (([EvPrint ["+ "]; EvPrint [exe]] ++
            map (fun arg => EvPrint [" "; arg]) args ++ [EvPrintln []]) ++ rest) =
    "+ " +:+ String.concat " " (exe :: args) +:+ Cli.newline +:+ printed rest.
Proof.
  rewrite <- !app_assoc. cbn [app]. rewrite !printed_print, printed_args.
  cbn [fold_right]. rewrite !append_nil_r, concat_spaced. reflexivity.
Qed.

(** X21: capture echoes the command line first, as a plus sign and then the
    executable and its arguments separated by single spaces on one line, and
    runs the command once, without an environment of its own.  It returns to
    its caller, with the combined output, exactly when the command succeeded;
    when the command failed it stops the test if it was given one and exits
    the process if it was not. *)
Theorem capture_spec (w : world) (t : option testingT) (exe : string)
    (args : list string) (g : globals) :
  let r := capture w t exe args g in
  state r = g /\
  snd (value r) = fst (CombinedOutput w exe args) /\
  (fst (value r) = Continues <-> snd (CombinedOutput w exe args) = None) /\
  (snd (CombinedOutput w exe args) <> None ->
     fst (value r) = match t with Some _ => TestStopped | None => ProcessExited end) /\
  commands (trace r) = [(exe, args)] /\
  environments (trace r) = [None] /\
  printed (trace r) = "+ " +:+ String.concat " " (exe :: args) +:+ Cli.newline.
Proof.
  cbv zeta. unfold capture, bind. rewrite showArgs_run.
  destruct (CombinedOutput w exe args) as [sout [e|]]; [destruct t as [[]|]|];
    unfold state, value, trace, emit, ret; cbn [fst snd];
    (split; [reflexivity|]); (split; [reflexivity|]);
    (split; [done|]); (split; [done|]).
  all: (split; [|split]).
  all: try (unfold commands, environments; rewrite !omap_app;
            rewrite (CliMore.omap_map_none _ _ args) by done; reflexivity).
  all: rewrite printed_showArgs; cbn; by rewrite append_nil_r.
Qed.
(** X28: TestMain names the two namespaces after the process id, so they
    always differ.  It creates the test namespace first; if that fails the
    process exits with 1 and neither the tests nor any cleanup run.
    Otherwise the tests run once and the manager namespace is deleted before
    the test namespace; if deleting the manager namespace fails, the test
    namespace is never deleted.  The exit code is the one of the tests when
    all three commands succeeded, and 1 otherwise. *)
Theorem TestMain_cleanup (w : world) (g : globals) :
  let r := TestMain w g in
  let ns := "telepresence-" +:+ GoLib.Itoa (Getpid w) in
  let mns := "ambassador-" +:+ GoLib.Itoa (Getpid w) in
  let create := kubectlNamespace (Kubeconfig w) "create" ns [] in
  let deleteManager := kubectlNamespace (Kubeconfig w) "delete" mns ["--wait=false"] in
  let deleteTest := kubectlNamespace (Kubeconfig w) "delete" ns ["--wait=false"] in
  let ok args := match snd (CombinedOutput w "kubectl" args) with
                 | None => true
                 | Some _ => false
                 end in
  namespace (state r) = ns /\
  managerTestNamespace (state r) = mns /\
  ns <> mns /\
  commands (trace r) =
    ("kubectl", create) ::
    (if ok create
     then ("kubectl", deleteManager) ::
          (if ok deleteManager then [("kubectl", deleteTest)] else [])
     else []) /\
  testRuns (trace r) = (if ok create then 1%nat else 0%nat) /\
  value r = if ok create && ok deleteManager && ok deleteTest then mRun w else 1.
Proof.
  cbv zeta. unfold TestMain, capture, showArgs, kubectlNamespace.
  destruct (CombinedOutput w "kubectl"
              (["--kubeconfig"; Kubeconfig w; "create"; "namespace";
                "telepresence-" +:+ GoLib.Itoa (Getpid w)] ++ [])) as [o1 [e1|]];
    [|destruct (CombinedOutput w "kubectl"
                 (["--kubeconfig"; Kubeconfig w; "delete"; "namespace";
                   "ambassador-" +:+ GoLib.Itoa (Getpid w)] ++ ["--wait=false"]))
         as [o2 [e2|]];
      [|destruct (CombinedOutput w "kubectl"
                   (["--kubeconfig"; Kubeconfig w; "delete"; "namespace";
                     "telepresence-" +:+ GoLib.Itoa (Getpid w)] ++ ["--wait=false"]))
          as [o3 [e3|]]]];
    run; repeat split; try reflexivity;
    intros H; vm_compute in H; discriminate H.
Qed.

Example TestMain_stuck :
  value (TestMain stuck vars) = 1 /\
  map (fun c => nth 2 (snd c) "") (commands (trace (TestMain stuck vars))) = ["create"; "delete"].
Proof. split; reflexivity. Qed.
End ConnectorTestFacts.

(** ** The preview commands *)

Module PreviewFacts.
Import Preview PreviewSamples.

(** Every way [createWithConnector] can go when it is given a name. *)
Lemma createWithConnector_run w name rest spec :
  let chosen :=
    match Ingress spec with
    | Some i => Ok i
    | None => selectIngress w
    end in
  let asked := match Ingress spec with Some _ => [] | None => [EvSelectIngress] end in
  createWithConnector w (name :: rest) spec =
    match chosen with
    | Err e => (Returns (Some e), spec, asked)
    | Ok i =>
        let spec' := {| Ingress := Some i; DisplayBanner := DisplayBanner spec |} in
        let req := {| Session := SessionInfo w; Name := name;
                      PreviewDomainAction := AddPreviewDomain spec' |} in
        match UpdateIntercept w with
        | Err e => (Returns (Some e), spec', asked ++ [EvUpdateIntercept CtxCommand req])
        | Ok info =>
            (Returns None, spec',
             asked ++ [EvUpdateIntercept CtxCommand req;
                       EvPrintln (DescribeIntercept w info false)])
        end
    end.
Proof.
  cbv zeta. unfold createWithConnector. destruct spec as [[i|] b]; run.
  - destruct (UpdateIntercept w); reflexivity.
  - destruct (selectIngress w); cbn; [|reflexivity].
    destruct (UpdateIntercept w); reflexivity.
Qed.

(** X22: given a name, the function of preview create never panics and
    sends at most one UpdateIntercept.  It asks for an ingress exactly when
    createSpec holds none; if asking fails it returns that error, sends
    nothing and leaves createSpec alone; otherwise the request names the
    intercept and the session and adds a preview domain whose ingress is
    never nil, is the one now stored in createSpec, and whose banner choice is
    that of createSpec. *)
Theorem createWithConnector_ingress (w : world) (name : string) (rest : list string)
    (spec : previewSpec) :
  let r := createWithConnector w (name :: rest) spec in
  value r <> PanicsIndexOutOfRange /\
  (length (updates (trace r)) <= 1)%nat /\
  selections (trace r) = match Ingress spec with Some _ => 0%nat | None => 1%nat end /\
  DisplayBanner (state r) = DisplayBanner spec /\
  (forall e, Ingress spec = None -> selectIngress w = Err e ->
     value r = Returns (Some e) /\ updates (trace r) = [] /\ state r = spec) /\
  (forall req, In req (updates (trace r)) ->
     Session req = SessionInfo w /\ Name req = name /\
     exists i,
       Ingress (state r) = Some i /\
       PreviewDomainAction req =
         AddPreviewDomain {| Ingress := Some i; DisplayBanner := DisplayBanner spec |}).
Proof.
  cbv zeta. rewrite createWithConnector_run.
  destruct spec as [[i|] b]; cbn [Ingress DisplayBanner];
    [|destruct (selectIngress w) as [i|e]];
    try destruct (UpdateIntercept w) as [info|e'];
    unfold value, state, trace, updates, selections; cbn;
    repeat split; try done; try lia; try congruence;
    try (match goal with H : _ \/ False |- _ => destruct H as [<-|[]] end;
         cbn; eauto).
Qed.

(** X23: the ingress chosen in one run of preview create is remembered in
    createSpec: a later run asks no more, whatever selectIngress would
    answer then, and sends the same ingress. *)
Theorem createWithConnector_remembers (w w' : world) (name name' : string)
    (rest rest' : list string) (spec : previewSpec) (i : ingressInfo) :
  Ingress spec = None ->
  selectIngress w = Ok i ->
  let spec1 := state (createWithConnector w (name :: rest) spec) in
  let r := createWithConnector w' (name' :: rest') spec1 in
  selections (trace r) = 0%nat /\
  state r = spec1 /\
  updates (trace r) =
    [{| Session := SessionInfo w'; Name := name';
        PreviewDomainAction :=
          AddPreviewDomain {| Ingress := Some i; DisplayBanner := DisplayBanner spec |} |}].
Proof.
  intros Hn Hsel. cbv zeta.
  assert (H1 : state (createWithConnector w (name :: rest) spec) =
               {| Ingress := Some i; DisplayBanner := DisplayBanner spec |}).
  { rewrite createWithConnector_run, Hn, Hsel. by destruct (UpdateIntercept w). }
  rewrite H1, createWithConnector_run. cbn [Ingress DisplayBanner].
  destruct (UpdateIntercept w'); repeat split.
Qed.

Lemma createWithConnector_remembers_witness :
  selections (trace (createWithConnector loggedOut ["hello"]
                       (state (createWithConnector manager ["hello"] zeroSpec)))) = 0%nat.
Proof.
  exact (proj1 (createWithConnector_remembers manager loggedOut "hello" "hello" [] []
                  zeroSpec "ingress.default:80" eq_refl eq_refl)).
Defined.

(** X24: given a name, the function of preview remove sends exactly one
    UpdateIntercept, for that name and session, with RemovePreviewDomain set;
    it asks for no ingress and leaves createSpec alone.  Both functions print
    the description of the intercept exactly when they return nil. *)
Theorem removeWithConnector_spec (w : world) (name : string) (rest : list string)
    (spec : previewSpec) :
  let r := removeWithConnector w (name :: rest) spec in
  let c := createWithConnector w (name :: rest) spec in
  state r = spec /\
  selections (trace r) = 0%nat /\
  updates (trace r) =
    [{| Session := SessionInfo w; Name := name;
        PreviewDomainAction := RemovePreviewDomain true |}] /\
  value r = Returns match UpdateIntercept w with Ok _ => None | Err e => Some e end /\
  (value r = Returns None <-> length (printlns (trace r)) = 1%nat) /\
  (value c = Returns None <-> length (printlns (trace c)) = 1%nat) /\
  (forall text, In text (printlns (trace r) ++ printlns (trace c)) ->
     exists info, UpdateIntercept w = Ok info /\ text = DescribeIntercept w info false).
Proof.
  cbv zeta. rewrite createWithConnector_run. unfold removeWithConnector. run.
  destruct spec as [[i|] b]; cbn [Ingress DisplayBanner];
    [|destruct (selectIngress w) as [i|e]];
    destruct (UpdateIntercept w) as [info|e'];
    unfold selections, updates, printlns; cbn;
    repeat split; try done;
    try (intros text H; repeat destruct H as [<-|H]; try done; eauto).
Qed.

(** X25: when the login check fails, the RunE of preview create returns that
    error having done nothing else: whatever withConnector is, it is not
    called, no ingress is asked for, no request is sent, and createSpec is
    untouched. *)
Theorem createRunE_needs_login (w : world)
    (withConnector : bool -> M event previewSpec outcome -> M event previewSpec outcome)
    (args : list string) (spec : previewSpec) (e : error) :
  EnsureLoggedIn w = Some e ->
  createRunE w withConnector args spec = (Returns (Some e), spec, [EvEnsureLoggedIn]).
Proof.
  intros H. unfold createRunE. run. rewrite H. reflexivity.
Qed.

Lemma createRunE_needs_login_witness :
  createRunE loggedOut runDirectly ["hello"] zeroSpec =
    (Returns (Some (ErrExternal "login failed")), zeroSpec, [EvEnsureLoggedIn]).
Proof.
  apply (createRunE_needs_login loggedOut runDirectly ["hello"] zeroSpec). reflexivity.
Defined.

(** X26: addPreviewFlags registers one boolean flag, named by the prefix
    followed by banner, with shorthand b and default true, and thereby sets
    DisplayBanner; the ingress is left as it was.  So with the flags of
    previewCommand at their defaults, every request of preview create asks
    for the banner. *)
Theorem addPreviewFlags_default (prefix : string) (spec : previewSpec)
    (w : world) (name : string) (rest : list string) :
  let r := addPreviewFlags prefix spec in
  trace r = [EvBoolVarP (prefix +:+ "banner") "b" true "Display banner on preview page"] /\
  state r = {| Ingress := Ingress spec; DisplayBanner := true |} /\
  forall req,
    In req (updates (trace (createWithConnector w (name :: rest)
                              (state (addPreviewFlags "" zeroSpec))))) ->
    exists i, PreviewDomainAction req =
                AddPreviewDomain {| Ingress := Some i; DisplayBanner := true |}.
Proof.
  cbv zeta. split; [reflexivity|]. split; [reflexivity|].
  change (state (addPreviewFlags "" zeroSpec))
    with {| Ingress := None; DisplayBanner := true |}.
  rewrite createWithConnector_run. cbn [Ingress DisplayBanner].
  destruct (selectIngress w) as [i|e]; [|intros req []].
  destruct (UpdateIntercept w); intros req [<-|[]]; cbn; eauto.
Qed.
End PreviewFacts.

(** ** Decimal rendering and parsing *)

Module DecimalFacts.
Import GoLib.

Lemma decimalValue_ge d : forall n, 0 <= n -> n <= decimalValue d n.
Proof.
  induction d; intros n Hn; cbn [decimalValue]; [lia|..];
    (etransitivity; [|apply IHd; lia]); lia.
Qed.

Lemma decimalValue_acc d : forall p,
  Z.pos (Pos.of_uint_acc d p) = decimalValue d (Z.pos p).
Proof.
  induction d; intros p; cbn [Pos.of_uint_acc decimalValue]; [reflexivity|..];
    rewrite IHd; f_equal; lia.
Qed.

Lemma decimalValue_of_uint d : Z.of_N (Pos.of_uint d) = decimalValue d 0.
Proof.
  induction d; cbn [Pos.of_uint decimalValue]; [reflexivity|exact IHd|..];
    cbn [Z.of_N]; rewrite decimalValue_acc; reflexivity.
Qed.

Lemma decimalValue_to_uint p : decimalValue (Pos.to_uint p) 0 = Z.pos p.
Proof. by rewrite <- decimalValue_of_uint, DecimalPos.Unsigned.of_to. Qed.

Lemma atoiDigits_step ch s n k :
  byteOf ch - 48 = k -> 0 <= k <= 9 -> 0 <= n -> n * 10 + k <= 2 ^ 63 ->
  atoiDigits (String ch s) n = atoiDigits s (n * 10 + k).
Proof.
  intros Hk Hr Hn Hv. cbn [atoiDigits]. rewrite Hk.
  change (2 ^ 63) with 9223372036854775808 in Hv.
  unfold maxUint64. change (2 ^ 64 - 1) with 18446744073709551615.
  change (18446744073709551615 / 10 + 1) with 1844674407370955162.
  replace ((0 <=? k) && (k <=? 9)) with true
    by (symmetry; apply andb_true_iff; split; apply Z.leb_le; lia).
  rewrite Z.geb_leb, Z.gtb_ltb.
  replace (1844674407370955162 <=? n) with false by (symmetry; apply Z.leb_gt; lia).
  replace (18446744073709551615 <? n * 10 + k) with false
    by (symmetry; apply Z.ltb_ge; lia).
  reflexivity.
Qed.

(** On digits that denote a number up to 2^63, the digit loop neither
    rejects a character nor reports a range error. *)
Lemma atoiDigits_string_of_uint d : forall n,
  0 <= n -> decimalValue d n <= 2 ^ 63 ->
  atoiDigits (NilEmpty.string_of_uint d) n = inr (decimalValue d n).
Proof.
  induction d; intros n Hn Hv; cbn [NilEmpty.string_of_uint decimalValue] in *;
    [reflexivity|..];
    match goal with
    | |- context [decimalValue d (n * 10 + ?k)] =>
        pose proof (decimalValue_ge d (n * 10 + k) ltac:(lia)) as Hge;
        rewrite (atoiDigits_step _ _ n k) by (first [reflexivity | lia]);
        apply IHd; [lia|exact Hv]
    end.
Qed.

Lemma string_of_uint_digit d :
  d <> Decimal.Nil ->
  exists c rest,
    NilEmpty.string_of_uint d = String c rest /\
    Ascii.eqb c "-" = false /\ Ascii.eqb c "+" = false.
Proof.
  destruct d; [done|..]; intros _; cbn [NilEmpty.string_of_uint]; eauto.
Qed.

Lemma string_of_uint_nonnil d :
  d <> Decimal.Nil -> NilZero.string_of_uint d = NilEmpty.string_of_uint d.
Proof. by destruct d. Qed.

Lemma in_range_true v :
  - 2 ^ 63 <= v < 2 ^ 63 -> (- 2 ^ 63 <=? v) && (v <? 2 ^ 63) = true.
Proof. intros H. apply andb_true_iff. split; [apply Z.leb_le|apply Z.ltb_lt]; lia. Qed.

Lemma Atoi_unsigned p :
  Z.pos p < 2 ^ 63 -> Atoi (NilEmpty.string_of_uint (Pos.to_uint p)) = Ok (Z.pos p).
Proof.
  intros Hp.
  pose proof (DecimalPos.Unsigned.to_uint_nonnil p) as Hnil.
  pose proof (decimalValue_to_uint p) as Hval.
  pose proof (atoiDigits_string_of_uint (Pos.to_uint p) 0 ltac:(lia) ltac:(lia)) as Ha.
  destruct (string_of_uint_digit _ Hnil) as (c & rest & Hs & Hminus & Hplus).
  rewrite Hs in *. unfold Atoi. rewrite Hminus, Hplus. cbn [orb].
  rewrite Ha, Hval. by rewrite in_range_true by lia.
Qed.

Lemma Atoi_negative p :
  Z.pos p <= 2 ^ 63 ->
  Atoi (String "-" (NilEmpty.string_of_uint (Pos.to_uint p))) = Ok (Z.neg p).
Proof.
  intros Hp.
  pose proof (DecimalPos.Unsigned.to_uint_nonnil p) as Hnil.
  pose proof (decimalValue_to_uint p) as Hval.
  pose proof (atoiDigits_string_of_uint (Pos.to_uint p) 0 ltac:(lia) ltac:(lia)) as Ha.
  destruct (string_of_uint_digit _ Hnil) as (c & rest & Hs & _).
  rewrite Hs in *. unfold Atoi.
  change (Ascii.eqb "-" "-") with true. cbn [orb].
  rewrite Ha, Hval. change (- Z.pos p) with (Z.neg p).
  by rewrite in_range_true by lia.
Qed.

(** [strconv.Atoi] reads back what [strconv.Itoa] writes, for every number
    of the int range. *)
Lemma Atoi_Itoa (n : Z) :
  - 2 ^ 63 <= n < 2 ^ 63 -> Atoi (Itoa n) = Ok n.
Proof.
  intros Hn. unfold Itoa. destruct n as [|p|p]; [reflexivity|..];
    cbn [Z.to_int NilZero.string_of_int];
    rewrite string_of_uint_nonnil by apply DecimalPos.Unsigned.to_uint_nonnil.
  - apply Atoi_unsigned. lia.
  - apply Atoi_negative. lia.
Qed.

Example Atoi_Itoa_min : Atoi (Itoa (- 2 ^ 63)) = Ok (- 2 ^ 63).
Proof. apply Atoi_Itoa. lia. Qed.

(** X27: for every value an int32 port can take, the argument sshWorker
    passes to ssh after -p is a decimal string that strconv.Atoi parses back
    to sshPort: rendering the port loses nothing. *)
Theorem sshWorker_port_parses (w : Connector.world) (c : context) (br : Connector.bridge) :
  - 2 ^ 31 <= Connector.sshPort br < 2 ^ 31 ->
  exists args port,
    trace (Connector.sshWorker w c br) = [Connector.EvExec c "ssh" args] /\
    Connector.argAfter "-p" args = Some port /\
    Atoi port = Ok (Connector.sshPort br).
Proof.
  intros Hr. do 2 eexists. split; [apply ConnectorMore.sshWorker_trace|].
  split; [reflexivity|]. apply Atoi_Itoa.
  change (2 ^ 31) with 2147483648 in Hr. change (2 ^ 63) with 9223372036854775808. lia.
Qed.

Lemma sshWorker_port_parses_witness :
  exists args port,
    trace (Connector.sshWorker ConnectorSamples.healthy CtxCommand ConnectorSamples.br0) =
      [Connector.EvExec CtxCommand "ssh" args] /\
    Connector.argAfter "-p" args = Some port /\
    Atoi port = Ok 2222.
Proof.
  apply (sshWorker_port_parses ConnectorSamples.healthy CtxCommand ConnectorSamples.br0).
  cbn. lia.
Defined.
End DecimalFacts.
